(** * Progress statistics of the study companion backend

    A shallow embedding of [routes/progress.js]: the [/stats] handler, the
    [/subject/:subject] handler and the helper [getWeeklyActivity], together
    with the fragment of the JavaScript number and [Date] semantics they use.

    Conventions.
    - Integers stored in documents (durations, ratings, array lengths,
      time values in milliseconds) are [Z].  Quotients are exact rationals
      [Q]; the double-precision rounding of quotients is not modelled.
    - The arrays [sessions] and [chatMessages] fetched by a handler live in a
      store that the handler threads through its statements, because
      [Array.prototype.sort] works in place.
    - The host time zone is the function [LocalTZA] of ECMAScript, a
      parameter of everything that reads local calendar fields. *)

From Stdlib Require Import ZArith QArith Qround List String Ascii Bool Lia.
From Stdlib Require Import DecimalString.
From Stdlib Require Import Permutation Sorted.
Import ListNotations.
Open Scope Z_scope.

(* ================================================================== *)
(** ** JavaScript numbers *)

Module JS.

(** A number is a finite rational, NaN, or a signed infinity. *)
Inductive number : Type :=
| Fin (q : Q)
| NaN
| Inf (negative : bool).

Definition of_Z (z : Z) : number := Fin (inject_Z z).

(** Values that denote the same number. *)
Definition eqv (a b : number) : Prop :=
  match a, b with
  | Fin x, Fin y => (x == y)%Q
  | NaN, NaN => True
  | Inf s, Inf t => s = t
  | _, _ => False
  end.

Definition is_finite (a : number) : bool :=
  match a with Fin _ => true | _ => false end.

Definition is_zero (q : Q) : bool := Qeq_bool q 0.
Definition is_neg (q : Q) : bool := (Qnum q <? 0)%Z.

(** [a / b]. *)
Definition div (a b : number) : number :=
  match a, b with
  | NaN, _ | _, NaN => NaN
  | Fin x, Fin y =>
      if is_zero y then (if is_zero x then NaN else Inf (is_neg x))
      else Fin (Qred (x / y))
  | Fin _, Inf _ => Fin 0
  | Inf s, Fin y => Inf (xorb s (is_neg y))
  | Inf _, Inf _ => NaN
  end.

(** [a * b]. *)
Definition mul (a b : number) : number :=
  match a, b with
  | NaN, _ | _, NaN => NaN
  | Fin x, Fin y => Fin (Qred (x * y))
  | Fin x, Inf s => if is_zero x then NaN else Inf (xorb s (is_neg x))
  | Inf s, Fin y => if is_zero y then NaN else Inf (xorb s (is_neg y))
  | Inf s, Inf t => Inf (xorb s t)
  end.

(** Truthiness of a number: everything except 0 and NaN. *)
Definition truthy (a : number) : bool :=
  match a with
  | Fin x => negb (is_zero x)
  | NaN => false
  | Inf _ => true
  end.

(** [a || 0] on numbers. *)
Definition or_zero (a : number) : number :=
  if truthy a then a else Fin 0.

(** [Math.round]: the nearest integer, halves going up. *)
Definition Math_round (a : number) : number :=
  match a with
  | Fin x => Fin (inject_Z (Qfloor (x + (1 # 2))))
  | _ => a
  end.

(** [x || 0] on an optional integer field of a document: [undefined],
    [null] and [0] are all falsy. *)
Definition field_or_zero (o : option Z) : Z :=
  match o with
  | Some z => if z =? 0 then 0 else z
  | None => 0
  end.

End JS.

(* ================================================================== *)
(** ** Documents *)

Inductive Role : Type := user | assistant.

Definition Role_eqb (a b : Role) : bool :=
  match a, b with
  | user, user | assistant, assistant => true
  | _, _ => false
  end.

Module StudySession.
(** The fields of a [StudySession] document that the routes read.
    [createdAt] is the time value of the Mongoose timestamp. *)
Record t : Type := mk {
  _id : Z;
  subject : string;
  topic : string;
  duration : option Z;
  rating : option Z;
  createdAt : Z
}.
End StudySession.

Module ChatMessage.
Record t : Type := mk {
  role : Role;
  subject : string
}.
End ChatMessage.

Module SubjectStat.
(** One element of [subjectStats]. *)
Record t : Type := mk {
  subject : string;
  sessions : Z;
  totalTime : Z;
  questions : Z;
  averageRating : JS.number
}.
End SubjectStat.

Module WeeklyBucket.
(** One element of [weeklyActivity]. *)
Record t : Type := mk {
  date : string;
  sessions : Z;
  time : Z
}.
End WeeklyBucket.

(* ================================================================== *)
(** ** Array helpers *)

Definition len {A} (l : list A) : Z := Z.of_nat (List.length l).

(** [arr.reduce((sum, s) => sum + f(s), 0)]. *)
Definition reduce_sum {A} (f : A -> Z) (l : list A) : Z :=
  fold_left (fun sum s => sum + f s) l 0.

(** [[...new Set(arr)]]: a [Set] keeps the first insertion of each value,
    in insertion order. *)
Definition Set_add (seen : list string) (x : string) : list string :=
  if existsb (String.eqb x) seen then seen else (seen ++ [x])%list.

Definition Set_values (l : list string) : list string :=
  fold_left Set_add l [].

(** The comparator of the [/stats] sort:
    [(a, b) => new Date(b.createdAt) - new Date(a.createdAt)]. *)
Definition byCreatedAtDesc (a b : StudySession.t) : Z :=
  StudySession.createdAt b - StudySession.createdAt a.

(** [Array.prototype.sort] is stable, so for a consistent comparator its
    result is determined: the elements in comparator order, ties in their
    original order.  Insertion from the right computes it. *)
Fixpoint sort_insert {A} (cmp : A -> A -> Z) (x : A) (l : list A) : list A :=
  match l with
  | [] => [x]
  | y :: l' => if cmp x y <=? 0 then x :: l else y :: sort_insert cmp x l'
  end.

Definition Array_sort {A} (cmp : A -> A -> Z) (l : list A) : list A :=
  fold_right (sort_insert cmp) [] l.

(** [arr.slice(0, n)]. *)
Definition slice0 {A} (n : nat) (l : list A) : list A := firstn n l.

(* ================================================================== *)
(** ** Dates

    Time values are milliseconds since the epoch.  The abstract operations
    carry the names ECMAScript gives them.  Every [Date] the handlers build
    is assumed to be a valid date (no [TimeClip] overflow). *)

Module Date.

Definition msPerDay : Z := 86400000.

Definition Day (t : Z) : Z := t / msPerDay.

(** The proleptic Gregorian calendar: day number to (year, month in
    1..12, day of month) and back, by 400-year eras. *)
Definition yoe_of (doe : Z) : Z :=
  (doe - doe / 1460 + doe / 36524 - doe / 146096) / 365.

Definition doy_of (doe : Z) : Z :=
  let yoe := yoe_of doe in doe - (365 * yoe + yoe / 4 - yoe / 100).

Definition civil_from_days (z : Z) : Z * Z * Z :=
  let z' := z + 719468 in
  let era := z' / 146097 in
  let doe := z' - era * 146097 in
  let y := yoe_of doe + era * 400 in
  let doy := doy_of doe in
  let mp := (5 * doy + 2) / 153 in
  let d := doy - (153 * mp + 2) / 5 + 1 in
  let m := if mp <? 10 then mp + 3 else mp - 9 in
  (if m <=? 2 then y + 1 else y, m, d).

Definition days_from_civil (y m d : Z) : Z :=
  let y' := if m <=? 2 then y - 1 else y in
  let era := y' / 400 in
  let yoe := y' - era * 400 in
  let mp := if 2 <? m then m - 3 else m + 9 in
  let doy := (153 * mp + 2) / 5 + d - 1 in
  let doe := yoe * 365 + yoe / 4 - yoe / 100 + doy in
  era * 146097 + doe - 719468.

Definition YearFromTime (t : Z) : Z :=
  let '(y, _, _) := civil_from_days (Day t) in y.

(** Months are numbered from 0. *)
Definition MonthFromTime (t : Z) : Z :=
  let '(_, m, _) := civil_from_days (Day t) in m - 1.

Definition DateFromTime (t : Z) : Z :=
  let '(_, _, d) := civil_from_days (Day t) in d.

Definition MakeDay (year month date : Z) : Z :=
  let ym := year + month / 12 in
  let mn := month mod 12 in
  days_from_civil ym (mn + 1) 1 + date - 1.

Definition MakeDate (day time : Z) : Z := day * msPerDay + time.

(** Fixed-width decimal rendering. *)
Definition digit (z : Z) : ascii := ascii_of_nat (48 + Z.to_nat (z mod 10)).

Fixpoint pad (width : nat) (z : Z) : string :=
  match width with
  | O => EmptyString
  | S w => (pad w (z / 10) ++ String (digit z) EmptyString)%string
  end.

Definition iso_year (y : Z) : string :=
  if (0 <=? y) && (y <=? 9999) then pad 4 y
  else String.append (if y <? 0 then "-"%string else "+"%string)
                     (pad 6 (Z.abs y)).

(** [d.toISOString().split('T')[0]]: the calendar date of [t] in UTC. *)
Definition toISOString_date (t : Z) : string :=
  let '(y, m, d) := civil_from_days (Day t) in
  (iso_year y ++ "-" ++ pad 2 m ++ "-" ++ pad 2 d)%string.

Section Zone.

(** [LocalTZA t isUTC]: the offset of local time from UTC, in
    milliseconds, at the UTC time value [t] ([isUTC = true]) or at the
    local time value [t] ([isUTC = false]). *)
Variable LocalTZA : Z -> bool -> Z.

Definition LocalTime (t : Z) : Z := t + LocalTZA t true.
Definition UTC (t : Z) : Z := t - LocalTZA t false.

Definition getFullYear (t : Z) : Z := YearFromTime (LocalTime t).
Definition getMonth (t : Z) : Z := MonthFromTime (LocalTime t).
Definition getDate (t : Z) : Z := DateFromTime (LocalTime t).

(** [new Date(year, month, date)]: local midnight of that calendar
    day; a year in 0..99 stands for 1900 + year. *)
Definition new_Date_ymd (year month date : Z) : Z :=
  let yr := if (0 <=? year) && (year <=? 99) then 1900 + year else year in
  UTC (MakeDate (MakeDay yr month date) 0).

End Zone.

(** A zone whose offset never changes. *)
Definition fixed_zone (tz : Z) : Z -> bool -> Z := fun _ _ => tz.

End Date.

(* ================================================================== *)
(** ** The store of a request and its monad *)

Record Store : Type := mkStore {
  sessions : list StudySession.t;
  chatMessages : list ChatMessage.t
}.

Definition M (A : Type) : Type := Store -> A * Store.

Definition ret {A} (a : A) : M A := fun st => (a, st).

Definition bind {A B} (m : M A) (k : A -> M B) : M B :=
  fun st => let '(a, st') := m st in k a st'.

(** Evaluate an expression that only reads the arrays. *)
Definition gets {A} (f : Store -> A) : M A := fun st => (f st, st).

(** [sessions.sort(cmp)]: reorders the array held in the store and
    returns that same array. *)
Definition sessions_sort (cmp : StudySession.t -> StudySession.t -> Z)
  : M (list StudySession.t) :=
  fun st =>
    let sorted := Array_sort cmp (sessions st) in
    (sorted, mkStore sorted (chatMessages st)).

Notation "x <- m ;; k" := (bind m (fun x => k))
  (at level 61, m at next level, right associativity).

(* ================================================================== *)
(** ** The handlers *)

Record StatsResponse : Type := mkStats {
  period : string;
  totalStudyTime : Z;
  totalSessions : Z;
  totalQuestions : Z;
  subjectsStudied : Z;
  averageSessionLength : JS.number;
  subjectStats : list SubjectStat.t;
  recentSessions : list StudySession.t;
  weeklyActivity : list WeeklyBucket.t
}.

Record SubjectResponse : Type := mkSubject {
  sr_subject : string;
  sr_totalSessions : Z;
  sr_totalTime : Z;
  sr_topicsCovered : Z;
  sr_averageRating : JS.number;
  sr_sessions : list StudySession.t;
  sr_topics : list string
}.

Definition duration_or_zero (s : StudySession.t) : Z :=
  JS.field_or_zero (StudySession.duration s).

Definition rating_or_zero (s : StudySession.t) : Z :=
  JS.field_or_zero (StudySession.rating s).

(** The body of [subjectsStudied.map(subject => ...)]. *)
Definition subjectStat (st : Store) (subject : string) : SubjectStat.t :=
  let subjectSessions :=
    filter (fun s => String.eqb (StudySession.subject s) subject) (sessions st) in
  let subjectTime := reduce_sum duration_or_zero subjectSessions in
  let subjectQuestions :=
    len (filter (fun msg => String.eqb (ChatMessage.subject msg) subject)
                (chatMessages st)) in
  SubjectStat.mk subject (len subjectSessions) subjectTime subjectQuestions
    (JS.or_zero (JS.div (JS.of_Z (reduce_sum rating_or_zero subjectSessions))
                        (JS.of_Z (len subjectSessions)))).

Section Handlers.

Variable LocalTZA : Z -> bool -> Z.

(** The body of the loop of [getWeeklyActivity] for one [i]. *)
Definition weeklyBucket (now : Z) (l : list StudySession.t) (i : Z)
  : WeeklyBucket.t :=
  let date := now - i * 24 * 60 * 60 * 1000 in
  let dayStart :=
    Date.new_Date_ymd LocalTZA (Date.getFullYear LocalTZA date)
      (Date.getMonth LocalTZA date) (Date.getDate LocalTZA date) in
  let dayEnd := dayStart + 24 * 60 * 60 * 1000 in
  let daySessions :=
    filter (fun session =>
              let sessionDate := StudySession.createdAt session in
              (dayStart <=? sessionDate) && (sessionDate <? dayEnd)) l in
  let dayTime := reduce_sum duration_or_zero daySessions in
  WeeklyBucket.mk (Date.toISOString_date dayStart) (len daySessions) dayTime.

(** [getWeeklyActivity(sessions)], with the clock reading [now] made a
    parameter: [i] runs from 6 down to 0, each turn pushing one bucket. *)
Definition getWeeklyActivity (now : Z) (l : list StudySession.t)
  : list WeeklyBucket.t :=
  fold_left (fun weeklyData i => (weeklyData ++ [weeklyBucket now l i])%list)
            [6; 5; 4; 3; 2; 1; 0] [].

(** [GET /stats], after the two queries have filled the store. *)
Definition get_stats (period : string) (now : Z) : M StatsResponse :=
  totalStudyTime <- gets (fun st => reduce_sum duration_or_zero (sessions st)) ;;
  totalQuestions <-
    gets (fun st =>
            len (filter (fun msg => Role_eqb (ChatMessage.role msg) user)
                        (chatMessages st))) ;;
  subjectsStudied <-
    gets (fun st => Set_values (map StudySession.subject (sessions st))) ;;
  averageSessionLength <-
    gets (fun st =>
            if 0 <? len (sessions st)
            then JS.div (JS.of_Z totalStudyTime) (JS.of_Z (len (sessions st)))
            else JS.Fin 0) ;;
  subjectStats <- gets (fun st => map (subjectStat st) subjectsStudied) ;;
  sorted <- sessions_sort byCreatedAtDesc ;;
  recentSessions <- ret (slice0 5 sorted) ;;
  totalSessions <- gets (fun st => len (sessions st)) ;;
  weekly <- gets (fun st => getWeeklyActivity now (sessions st)) ;;
  ret (mkStats period totalStudyTime totalSessions totalQuestions
         (len subjectsStudied) (JS.Math_round averageSessionLength)
         subjectStats recentSessions weekly).

(** The statistics of a request, and the arrays it leaves behind. *)
Definition computeStats (ss : list StudySession.t) (cs : list ChatMessage.t)
    (period : string) (now : Z) : StatsResponse :=
  fst (get_stats period now (mkStore ss cs)).

Definition computeStats_store (ss : list StudySession.t)
    (cs : list ChatMessage.t) (period : string) (now : Z) : Store :=
  snd (get_stats period now (mkStore ss cs)).

End Handlers.

(** [GET /subject/:subject], after the query has returned [l]. *)
Definition get_subject (subject : string) (l : list StudySession.t)
  : SubjectResponse :=
  let topics := Set_values (map StudySession.topic l) in
  let totalTime := reduce_sum duration_or_zero l in
  let averageRating :=
    JS.or_zero (JS.div (JS.of_Z (reduce_sum rating_or_zero l)) (JS.of_Z (len l))) in
  mkSubject subject (len l) totalTime (len topics)
    (JS.div (JS.Math_round (JS.mul averageRating (JS.Fin 10))) (JS.Fin 10))
    l topics.

(* ================================================================== *)
(** ** The collections behind the routes

    A collection is the list of its documents.  [Model.find(filter)] is
    the sublist of the documents that match, in stored order;
    [doc.save()] validates the document against the schema and appends it;
    [Model.findOneAndUpdate(filter, update, { new: true })] rewrites the
    first document that matches, without validation, and returns it. *)

Module SessionDoc.
(** A stored [StudySession] document: the paths of the schema in
    [models/StudySession.js] and the two timestamps. *)
Record t : Type := mk {
  _id : Z;
  userId : Z;
  subject : string;
  topic : string;
  duration : option Z;
  difficulty : string;
  questionsAsked : Z;
  conceptsLearned : list string;
  notes : option string;
  rating : option Z;
  completed : bool;
  startTime : Z;
  endTime : Z;
  createdAt : Z;
  updatedAt : Z
}.

(** What the statistics read of a document. *)
Definition view (d : t) : StudySession.t :=
  StudySession.mk (_id d) (subject d) (topic d) (duration d) (rating d)
    (createdAt d).

Definition subject_enum : list string :=
  ["DSA"; "OS"; "DBMS"; "CN"; "SE"; "AI"; "ML"; "Web Dev"; "Mobile Dev"]%string.

Definition difficulty_enum : list string := ["easy"; "medium"; "hard"]%string.

Definition in_enum (x : string) (l : list string) : bool :=
  existsb (String.eqb x) l.

(** The validators of the schema: [subject] required and of the enum,
    [topic] required, [duration] required and at least 1, [difficulty] of
    its enum, [rating], when present, from 1 to 5. *)
Definition validate (d : t) : bool :=
  in_enum (subject d) subject_enum
  && negb (String.eqb (topic d) EmptyString)
  && match duration d with Some x => 1 <=? x | None => false end
  && in_enum (difficulty d) difficulty_enum
  && match rating d with Some r => (1 <=? r) && (r <=? 5) | None => true end.

(** [doc.save()]: [None] stands for the rejected promise of a failed
    validation. *)
Definition save (d : t) (db : list t) : option (list t) :=
  if validate d then Some (db ++ [d]) else None.

Fixpoint findOneAndUpdate (matches : t -> bool) (update : t -> t)
    (db : list t) : option t * list t :=
  match db with
  | [] => (None, [])
  | d :: rest =>
      if matches d then (Some (update d), update d :: rest)
      else let '(found, rest') := findOneAndUpdate matches update rest in
           (found, d :: rest')
  end.
End SessionDoc.

Module ChatDoc.
(** The paths of a stored [ChatMessage] that [GET /stats] reads. *)
Record t : Type := mk {
  userId : Z;
  role : Role;
  subject : string;
  createdAt : Z
}.

Definition view (d : t) : ChatMessage.t := ChatMessage.mk (role d) (subject d).
End ChatDoc.

(** What a handler sends: [res.status(s).json({ message })], or a JSON
    body with its status. *)
Inductive Response (A : Type) : Type :=
| Message (status : Z) (message : string)
| Json (status : Z) (body : A).

Arguments Message {A} status message.
Arguments Json {A} status body.

Definition status_of {A} (r : Response A) : Z :=
  match r with Message s _ => s | Json s _ => s end.

(** A string of a request that may be missing; [!x] holds of a missing
    and of an empty one. *)
Definition falsy_string (o : option string) : bool :=
  match o with
  | None => true
  | Some s => String.eqb s EmptyString
  end.

(** *** [POST /session/start] *)

Record StartBody : Type := mkStartBody {
  start_subject : option string;
  start_topic : option string;
  start_difficulty : option string
}.

Record StartedSession : Type := mkStarted {
  started_id : Z;
  started_subject : string;
  started_topic : string;
  started_difficulty : string;
  started_startTime : Z
}.

(** [user] is [req.user._id], [now] the clock and [fresh] the identifier
    the new document receives. *)
Definition post_session_start (user now fresh : Z) (body : StartBody)
    (db : list SessionDoc.t)
  : Response StartedSession * list SessionDoc.t :=
  let difficulty :=
    match start_difficulty body with Some d => d | None => "medium"%string end in
  if falsy_string (start_subject body) || falsy_string (start_topic body)
  then (Message 400 "Subject and topic are required", db)
  else
    let subject :=
      match start_subject body with Some s => s | None => EmptyString end in
    let topic :=
      match start_topic body with Some s => s | None => EmptyString end in
    let session :=
      SessionDoc.mk fresh user subject topic None difficulty 0 [] None None
        true now now now now in
    match SessionDoc.save session db with
    | Some db' =>
        (Json 201 (mkStarted (SessionDoc._id session) (SessionDoc.subject session)
                     (SessionDoc.topic session) (SessionDoc.difficulty session)
                     (SessionDoc.startTime session)), db')
    | None => (Message 500 "Server error starting session", db)
    end.

(** *** [PUT /session/:sessionId/end] *)

Record EndBody : Type := mkEndBody {
  end_duration : option Z;
  end_conceptsLearned : option (list string);
  end_notes : option string;
  end_rating : option Z
}.

Section EndSession.

(** Whether an [undefined] value in an update leaves the stored path as it
    is ([true]) or clears it ([false]); the versions of the driver differ. *)
Variable strip_undefined : bool.

Definition set_path {A} (new old : option A) : option A :=
  match new with
  | Some v => Some v
  | None => if strip_undefined then old else None
  end.

(** The update document of the handler, applied to a stored session. *)
Definition end_update (now : Z) (body : EndBody) (d : SessionDoc.t)
  : SessionDoc.t :=
  SessionDoc.mk (SessionDoc._id d) (SessionDoc.userId d) (SessionDoc.subject d)
    (SessionDoc.topic d)
    (Some (JS.field_or_zero (end_duration body)))
    (SessionDoc.difficulty d) (SessionDoc.questionsAsked d)
    (match end_conceptsLearned body with Some c => c | None => [] end)
    (set_path (end_notes body) (SessionDoc.notes d))
    (set_path (end_rating body) (SessionDoc.rating d))
    true (SessionDoc.startTime d) now (SessionDoc.createdAt d) now.

(** [sessionId] is [None] when the path parameter is not an identifier;
    the query then throws. *)
Definition put_session_end (user now : Z) (sessionId : option Z)
    (body : EndBody) (db : list SessionDoc.t)
  : Response SessionDoc.t * list SessionDoc.t :=
  match sessionId with
  | None => (Message 500 "Server error ending session", db)
  | Some id =>
      match SessionDoc.findOneAndUpdate
              (fun d => (SessionDoc._id d =? id) && (SessionDoc.userId d =? user))
              (end_update now body) db with
      | (None, _) => (Message 404 "Session not found", db)
      | (Some session, db') => (Json 200 session, db')
      end
  end.

End EndSession.

(** *** [GET /stats] with its queries *)

(** The [switch] on [period]. *)
Definition startDate (period : string) (now : Z) : Z :=
  if String.eqb period "7d" then now - 7 * 24 * 60 * 60 * 1000
  else if String.eqb period "30d" then now - 30 * 24 * 60 * 60 * 1000
  else if String.eqb period "90d" then now - 90 * 24 * 60 * 60 * 1000
  else now - 30 * 24 * 60 * 60 * 1000.

(** [StudySession.find({ userId, createdAt: { $gte: startDate } })]. *)
Definition find_sessions (user start : Z) (db : list SessionDoc.t)
  : list SessionDoc.t :=
  filter (fun d => (SessionDoc.userId d =? user)
                   && (start <=? SessionDoc.createdAt d)) db.

Definition find_chat (user start : Z) (db : list ChatDoc.t) : list ChatDoc.t :=
  filter (fun d => (ChatDoc.userId d =? user)
                   && (start <=? ChatDoc.createdAt d)) db.

(** The whole handler: [period] is the query parameter, ['30d'] when it is
    not given. *)
Definition stats_route (LocalTZA : Z -> bool -> Z) (user now : Z)
    (query_period : option string) (sdb : list SessionDoc.t)
    (cdb : list ChatDoc.t) : StatsResponse :=
  let period :=
    match query_period with Some p => p | None => "30d"%string end in
  let start := startDate period now in
  computeStats LocalTZA
    (map SessionDoc.view (find_sessions user start sdb))
    (map ChatDoc.view (find_chat user start cdb))
    period now.

(* ================================================================== *)
(** ** The pages that show the numbers *)

(** [n.toString()] of an integer. *)
Definition toString (z : Z) : string := NilZero.string_of_int (Z.to_int z).

Fixpoint zeros (n : nat) : string :=
  match n with
  | O => EmptyString
  | S k => String "0" (zeros k)
  end.

(** [s.padStart(2, '0')]. *)
Definition padStart2 (s : string) : string :=
  String.append (zeros (2 - String.length s)) s.

(** [formatTime(seconds)] of the timer page; [%] is the remainder that
    takes the sign of the dividend. *)
Definition formatTime (seconds : Z) : string :=
  let hours := seconds / 3600 in
  let minutes := Z.rem seconds 3600 / 60 in
  let secs := Z.rem seconds 60 in
  if 0 <? hours
  then (padStart2 (toString hours) ++ ":" ++ padStart2 (toString minutes)
        ++ ":" ++ padStart2 (toString secs))%string
  else (padStart2 (toString minutes) ++ ":" ++ padStart2 (toString secs))%string.

(** [Math.round(minutes / 60)], the hours the progress page shows. *)
Definition shown_hours (minutes : Z) : JS.number :=
  JS.Math_round (JS.div (JS.of_Z minutes) (JS.Fin 60)).

(* ================================================================== *)
(** ** Reference notions used to state the properties *)

(** The sum of a list of integers. *)
Definition sumZ (l : list Z) : Z := fold_right Z.add 0 l.

(** An absent value counts as 0. *)
Definition absent_as_zero (o : option Z) : Z :=
  match o with Some z => z | None => 0 end.

(** Descending order of creation time. *)
Definition newer_or_same (a b : StudySession.t) : Prop :=
  StudySession.createdAt b <= StudySession.createdAt a.

(** The ratings that are present among the sessions of [subject]. *)
Definition ratings_of (subject : string) (l : list StudySession.t) : list Z :=
  flat_map (fun s => match StudySession.rating s with
                     | Some r => [r]
                     | None => []
                     end)
           (filter (fun s => String.eqb (StudySession.subject s) subject) l).

(** The arithmetic mean of a list of integers, 0 for the empty list. *)
Definition mean (l : list Z) : Q :=
  match l with
  | [] => 0%Q
  | _ => (inject_Z (sumZ l) / inject_Z (len l))%Q
  end.

(** The entry of [subjectStats] for a subject, when there is one. *)
Definition stat_of (subject : string) (stats : list SubjectStat.t)
  : option SubjectStat.t :=
  find (fun e => String.eqb (SubjectStat.subject e) subject) stats.

(** The sessions created at the time value [c], in array order. *)
Definition created_at (c : Z) (l : list StudySession.t) : list StudySession.t :=
  filter (fun s => StudySession.createdAt s =? c) l.

(** Whether a time value lies in the half-open interval [[lo, hi)]. *)
Definition within (lo hi t : Z) : bool := (lo <=? t) && (t <? hi).

(** In a zone with the fixed offset [tz]: the number of the local calendar
    day that contains [t], and the time value at which a local day starts. *)
Definition local_day (tz t : Z) : Z := Date.Day (t + tz).

Definition local_day_start (tz day : Z) : Z := day * Date.msPerDay - tz.

(** The sessions created on a given local day, and on a range of local
    days, of a fixed zone. *)
Definition created_on (tz day : Z) (l : list StudySession.t)
  : list StudySession.t :=
  filter (fun s => local_day tz (StudySession.createdAt s) =? day) l.

Definition created_between (tz first last : Z) (l : list StudySession.t)
  : list StudySession.t :=
  filter (fun s => (first <=? local_day tz (StudySession.createdAt s))
                   && (local_day tz (StudySession.createdAt s) <=? last)) l.

(** The bucket of a local day in a fixed zone. *)
Definition bucket_of_day (tz day : Z) (l : list StudySession.t)
  : WeeklyBucket.t :=
  WeeklyBucket.mk (Date.toISOString_date (local_day_start tz day))
    (len (created_on tz day l))
    (reduce_sum duration_or_zero (created_on tz day l)).

(** The chat messages whose subject is the subject of some session. *)
Definition about_studied_subject (ss : list StudySession.t)
    (cs : list ChatMessage.t) : list ChatMessage.t :=
  filter (fun msg =>
            existsb (String.eqb (ChatMessage.subject msg))
                    (map StudySession.subject ss)) cs.

(** The documents of one user. *)
Definition sessions_of_user (user : Z) (db : list SessionDoc.t)
  : list SessionDoc.t :=
  filter (fun d => SessionDoc.userId d =? user) db.

Definition chat_of_user (user : Z) (db : list ChatDoc.t) : list ChatDoc.t :=
  filter (fun d => ChatDoc.userId d =? user) db.

(** Reading a clock back: two decimal digits per field, [MM:SS] or
    [HH:MM:SS], to seconds. *)
Definition digit_value (c : ascii) : option Z :=
  let n := Z.of_nat (nat_of_ascii c) in
  if (48 <=? n) && (n <=? 57) then Some (n - 48) else None.

Definition two_digits (a b : ascii) : option Z :=
  match digit_value a, digit_value b with
  | Some x, Some y => Some (10 * x + y)
  | _, _ => None
  end.

Definition parse_clock (s : string) : option Z :=
  match s with
  | String m1 (String m2 (String sep (String s1 (String s2 EmptyString)))) =>
      if Ascii.eqb sep ":" then
        match two_digits m1 m2, two_digits s1 s2 with
        | Some m, Some sec => Some (m * 60 + sec)
        | _, _ => None
        end
      else None
  | String h1 (String h2 (String sep (String m1 (String m2
      (String sep' (String s1 (String s2 EmptyString))))))) =>
      if Ascii.eqb sep ":" && Ascii.eqb sep' ":" then
        match two_digits h1 h2, two_digits m1 m2, two_digits s1 s2 with
        | Some h, Some m, Some sec => Some (h * 3600 + m * 60 + sec)
        | _, _, _ => None
        end
      else None
  | _ => None
  end.

(** A response with another [period] label. *)
Definition with_period (p : string) (r : StatsResponse) : StatsResponse :=
  mkStats p (totalStudyTime r) (totalSessions r) (totalQuestions r)
    (subjectsStudied r) (averageSessionLength r) (subjectStats r)
    (recentSessions r) (weeklyActivity r).

(* ================================================================== *)
(** ** Sample documents and zones *)

Definition session (id : Z) (subject : string) (duration rating : option Z)
    (createdAt : Z) : StudySession.t :=
  StudySession.mk id subject "arrays" duration rating createdAt.

(** Two sessions stored oldest first. *)
Definition two_sessions : list StudySession.t :=
  [ session 1 "DSA" (Some 1) (Some 4) 1000;
    session 2 "DSA" (Some 2) None 2000 ].

(** Seven sessions in no particular order. *)
Definition seven_sessions : list StudySession.t :=
  [ session 1 "DSA" (Some 30) (Some 4) 400;
    session 2 "OS" (Some 45) None 100;
    session 3 "DSA" (Some 60) (Some 2) 700;
    session 4 "CN" None None 300;
    session 5 "OS" (Some 15) (Some 5) 600;
    session 6 "DBMS" (Some 20) (Some 3) 200;
    session 7 "CN" (Some 25) (Some 1) 500 ].

(** A host that runs in UTC. *)
Definition zone_UTC : Z -> bool -> Z := Date.fixed_zone 0.

(** India Standard Time: UTC+05:30 all year. *)
Definition zone_IST : Z -> bool -> Z := Date.fixed_zone 19800000.

(** 2024-01-15T06:30:00Z, which is noon of 15 January in [zone_IST]. *)
Definition noon_IST_2024_01_15 : Z := 1705300200000.

(** US Eastern time around the end of daylight saving time in 2024:
    UTC-4 until 2024-11-03T06:00:00Z, UTC-5 from then on.  A local time
    that occurs twice is read with the offset before the change. *)
Definition eastern_change_2024 : Z := 1730613600000.

Definition zone_Eastern_autumn_2024 : Z -> bool -> Z :=
  fun t isUTC =>
    if isUTC
    then (if t <? eastern_change_2024 then -14400000 else -18000000)
    else (if t <? eastern_change_2024 - 14400000 then -14400000 else -18000000).

(** 2024-11-04T04:30:00Z, which is 23:30 of 3 November in
    [zone_Eastern_autumn_2024]. *)
Definition late_evening_Eastern_2024_11_03 : Z := 1730694600000.

(** A session created at 2024-11-03T15:00:00Z, 10:00 local time. *)
Definition one_session_2024_11_03 : list StudySession.t :=
  [ session 1 "DSA" (Some 30) None 1730646000000 ].

(** Stored sessions of two users; the clock of the samples reads
    2024-01-15T06:30:00Z. *)
Definition stored (id user : Z) (subject : string) (duration rating : option Z)
    (createdAt : Z) : SessionDoc.t :=
  SessionDoc.mk id user subject "arrays" duration "medium" 0 [] None rating
    true createdAt createdAt createdAt createdAt.

Definition sample_sessions_db : list SessionDoc.t :=
  [ stored 1 7 "DSA" (Some 30) (Some 4) 1705290000000;
    stored 2 8 "OS" (Some 45) None 1705291000000;
    stored 3 7 "OS" (Some 20) (Some 5) 1700000000000 ].

Definition sample_sessions_db_of_7 : list SessionDoc.t :=
  [ stored 1 7 "DSA" (Some 30) (Some 4) 1705290000000;
    stored 3 7 "OS" (Some 20) (Some 5) 1700000000000 ].

Definition sample_chat_db : list ChatDoc.t :=
  [ ChatDoc.mk 7 user "DSA" 1705290500000;
    ChatDoc.mk 8 user "OS" 1705290600000;
    ChatDoc.mk 7 assistant "DSA" 1705290700000 ].

Definition sample_chat_db_of_7 : list ChatDoc.t :=
  [ ChatDoc.mk 7 user "DSA" 1705290500000;
    ChatDoc.mk 7 assistant "DSA" 1705290700000 ].

Definition empty_end_body : EndBody := mkEndBody None None None None.

(** The DSA sessions of [seven_sessions], newest first, as the subject
    page's query returns them. *)
Definition dsa_sessions_newest_first : list StudySession.t :=
  [ session 3 "DSA" (Some 60) (Some 2) 700;
    session 1 "DSA" (Some 30) (Some 4) 400 ].

(* ================================================================== *)
(** * Properties *)

(** ** Sums and lengths *)

Lemma fold_left_sum_acc {A} (f : A -> Z) (l : list A) (a : Z) :
  fold_left (fun sum s => sum + f s) l a = a + reduce_sum f l.
Proof.
  unfold reduce_sum. revert a.
  induction l as [|x l IH]; intros a; simpl; [lia|].
  rewrite (IH (a + f x)), (IH (f x)). lia.
Qed.

Lemma reduce_sum_nil {A} (f : A -> Z) : reduce_sum f [] = 0.
Proof. reflexivity. Qed.

Lemma reduce_sum_cons {A} (f : A -> Z) (x : A) (l : list A) :
  reduce_sum f (x :: l) = f x + reduce_sum f l.
Proof. unfold reduce_sum at 1. simpl. apply fold_left_sum_acc. Qed.

Lemma reduce_sum_sumZ {A} (f : A -> Z) (l : list A) :
  reduce_sum f l = sumZ (map f l).
Proof.
  induction l as [|x l IH]; [reflexivity|].
  rewrite reduce_sum_cons, IH. reflexivity.
Qed.

Lemma reduce_sum_perm {A} (f : A -> Z) (l l' : list A) :
  Permutation l l' -> reduce_sum f l = reduce_sum f l'.
Proof.
  induction 1; rewrite ?reduce_sum_cons; lia.
Qed.

Lemma len_nil {A} : len (@nil A) = 0.
Proof. reflexivity. Qed.

Lemma len_cons {A} (x : A) (l : list A) : len (x :: l) = 1 + len l.
Proof. unfold len. simpl List.length. lia. Qed.

Lemma len_nonneg {A} (l : list A) : 0 <= len l.
Proof. unfold len. lia. Qed.

Lemma len_reduce_sum {A} (l : list A) : len l = reduce_sum (fun _ => 1) l.
Proof.
  induction l as [|x l IH]; [reflexivity|].
  rewrite len_cons, reduce_sum_cons. lia.
Qed.

Lemma len_pos_iff {A} (l : list A) : 0 < len l <-> l <> [].
Proof.
  destruct l as [|x l].
  - split; [unfold len; simpl; lia | congruence].
  - pose proof (len_cons x l). pose proof (len_nonneg l).
    split; [congruence | lia].
Qed.

Lemma field_or_zero_absent (o : option Z) :
  JS.field_or_zero o = absent_as_zero o.
Proof.
  destruct o as [z|]; simpl; [|reflexivity].
  destruct (Z.eqb_spec z 0); lia.
Qed.

(** ** The in-place sort *)

Lemma sort_insert_perm {A} (cmp : A -> A -> Z) (x : A) (l : list A) :
  Permutation (x :: l) (sort_insert cmp x l).
Proof.
  induction l as [|y l IH]; simpl; [apply Permutation_refl|].
  destruct (cmp x y <=? 0); [apply Permutation_refl|].
  eapply perm_trans; [apply perm_swap|]. apply perm_skip, IH.
Qed.

Lemma Array_sort_perm {A} (cmp : A -> A -> Z) (l : list A) :
  Permutation l (Array_sort cmp l).
Proof.
  induction l as [|x l IH]; simpl; [constructor|].
  eapply perm_trans; [apply perm_skip, IH | apply sort_insert_perm].
Qed.

Lemma sort_insert_sorted (x : StudySession.t) (l : list StudySession.t) :
  StronglySorted newer_or_same l ->
  StronglySorted newer_or_same (sort_insert byCreatedAtDesc x l).
Proof.
  induction 1 as [|y l Hl IH Hy]; simpl.
  - repeat constructor.
  - unfold byCreatedAtDesc at 1.
    destruct (Z.leb_spec (StudySession.createdAt y - StudySession.createdAt x) 0)
      as [Hle|Hgt].
    + constructor; [constructor; assumption|].
      constructor; [unfold newer_or_same; lia|].
      rewrite Forall_forall in *. intros z Hz. specialize (Hy z Hz).
      unfold newer_or_same in *. lia.
    + constructor; [exact IH|].
      eapply Permutation_Forall; [apply sort_insert_perm|].
      constructor; [unfold newer_or_same; lia | exact Hy].
Qed.

Lemma Array_sort_sorted (l : list StudySession.t) :
  StronglySorted newer_or_same (Array_sort byCreatedAtDesc l).
Proof.
  induction l as [|x l IH]; simpl; [constructor|].
  apply sort_insert_sorted, IH.
Qed.

(** A list that is already in descending order is left as it is. *)
Lemma Array_sort_fixpoint (l : list StudySession.t) :
  StronglySorted newer_or_same l -> Array_sort byCreatedAtDesc l = l.
Proof.
  induction 1 as [|x l Hl IH Hx]; [reflexivity|].
  simpl. rewrite IH. destruct l as [|y l]; [reflexivity|].
  simpl. inversion Hx as [|? ? Hxy _]; subst.
  unfold byCreatedAtDesc, newer_or_same in *.
  destruct (Z.leb_spec (StudySession.createdAt y - StudySession.createdAt x) 0);
    [reflexivity | lia].
Qed.

Lemma StronglySorted_app_inv {A} (R : A -> A -> Prop) (l1 l2 : list A) :
  StronglySorted R (l1 ++ l2) ->
  StronglySorted R l1 /\ (forall a b, In a l1 -> In b l2 -> R a b).
Proof.
  induction l1 as [|x l1 IH]; simpl; intros H.
  - split; [constructor | intros a b []].
  - inversion H as [|? ? Hs Hx]; subst. destruct (IH Hs) as [Hs1 Hcross].
    rewrite Forall_forall in Hx. split.
    + constructor; [exact Hs1|]. rewrite Forall_forall.
      intros z Hz. apply Hx, in_or_app. now left.
    + intros a b [<-|Ha] Hb; [apply Hx, in_or_app; now right | now apply Hcross].
Qed.

(** ** Distinct values in insertion order *)

Lemma existsb_eqb_In (x : string) (l : list string) :
  existsb (String.eqb x) l = true <-> In x l.
Proof.
  rewrite existsb_exists. split.
  - intros [y [Hy He]]. apply String.eqb_eq in He. now subst.
  - intros H. exists x. split; [exact H | apply String.eqb_refl].
Qed.

Lemma Set_add_In (seen : list string) (x y : string) :
  In y (Set_add seen x) <-> In y seen \/ y = x.
Proof.
  unfold Set_add. destruct (existsb (String.eqb x) seen) eqn:E.
  - apply existsb_eqb_In in E. split; [tauto | intros [H | ->]; assumption].
  - rewrite in_app_iff. simpl. intuition.
Qed.

Lemma Set_add_NoDup (seen : list string) (x : string) :
  NoDup seen -> NoDup (Set_add seen x).
Proof.
  intros H. unfold Set_add. destruct (existsb (String.eqb x) seen) eqn:E; [exact H|].
  assert (Hx : ~ In x seen).
  { intros Hin. apply existsb_eqb_In in Hin. congruence. }
  apply NoDup_rev in H. rewrite <- (rev_involutive (seen ++ [x])).
  apply NoDup_rev. rewrite rev_app_distr. simpl.
  constructor; [now rewrite <- in_rev | exact H].
Qed.

Lemma fold_Set_add_In (l seen : list string) (y : string) :
  In y (fold_left Set_add l seen) <-> In y seen \/ In y l.
Proof.
  revert seen. induction l as [|x l IH]; intros seen; simpl; [tauto|].
  rewrite IH, Set_add_In. intuition.
Qed.

Lemma fold_Set_add_NoDup (l seen : list string) :
  NoDup seen -> NoDup (fold_left Set_add l seen).
Proof.
  revert seen. induction l as [|x l IH]; intros seen H; simpl; [exact H|].
  apply IH, Set_add_NoDup, H.
Qed.

Lemma Set_values_In (l : list string) (y : string) :
  In y (Set_values l) <-> In y l.
Proof. unfold Set_values. rewrite fold_Set_add_In. simpl. tauto. Qed.

Lemma Set_values_NoDup (l : list string) : NoDup (Set_values l).
Proof. apply fold_Set_add_NoDup. constructor. Qed.

(** ** What [GET /stats] computes, field by field *)

Section StatsFields.

Variable LocalTZA : Z -> bool -> Z.
Variables (ss : list StudySession.t) (cs : list ChatMessage.t).
Variables (p : string) (now : Z).

Lemma stats_totalStudyTime :
  totalStudyTime (computeStats LocalTZA ss cs p now)
  = reduce_sum duration_or_zero ss.
Proof. reflexivity. Qed.

Lemma stats_totalSessions :
  totalSessions (computeStats LocalTZA ss cs p now) = len ss.
Proof.
  change (len (Array_sort byCreatedAtDesc ss) = len ss).
  unfold len. f_equal. symmetry. apply Permutation_length, Array_sort_perm.
Qed.

Lemma stats_subjectStats :
  subjectStats (computeStats LocalTZA ss cs p now)
  = map (subjectStat (mkStore ss cs))
        (Set_values (map StudySession.subject ss)).
Proof. reflexivity. Qed.

Lemma stats_averageSessionLength :
  averageSessionLength (computeStats LocalTZA ss cs p now)
  = JS.Math_round
      (if 0 <? len ss
       then JS.div (JS.of_Z (reduce_sum duration_or_zero ss)) (JS.of_Z (len ss))
       else JS.Fin 0).
Proof. reflexivity. Qed.

Lemma stats_recentSessions :
  recentSessions (computeStats LocalTZA ss cs p now)
  = firstn 5 (Array_sort byCreatedAtDesc ss).
Proof. reflexivity. Qed.

Lemma stats_weeklyActivity :
  weeklyActivity (computeStats LocalTZA ss cs p now)
  = getWeeklyActivity LocalTZA now (Array_sort byCreatedAtDesc ss).
Proof. reflexivity. Qed.

Lemma stats_store :
  computeStats_store LocalTZA ss cs p now
  = mkStore (Array_sort byCreatedAtDesc ss) cs.
Proof. reflexivity. Qed.

End StatsFields.

(** ** Quotients *)

Lemma is_zero_inject_Z (z : Z) : JS.is_zero (inject_Z z) = (z =? 0).
Proof.
  unfold JS.is_zero, Qeq_bool. simpl. rewrite Z.mul_1_r.
  destruct z; reflexivity.
Qed.

Lemma Qred_zero (q : Q) : (q == 0)%Q -> Qred q = 0%Q.
Proof. intros H. apply (Qred_complete q 0 H). Qed.

Lemma div_of_Z_nonzero (a b : Z) :
  b <> 0 -> JS.div (JS.of_Z a) (JS.of_Z b) = JS.Fin (Qred (inject_Z a / inject_Z b)).
Proof.
  intros Hb. unfold JS.div, JS.of_Z. rewrite is_zero_inject_Z.
  destruct (Z.eqb_spec b 0); [contradiction | reflexivity].
Qed.

(** Rounding a quotient of integers, in integer arithmetic. *)
Lemma Qfloor_half_up (a b : Z) :
  0 < b -> Qfloor (inject_Z a / inject_Z b + (1 # 2)) = (2 * a + b) / (2 * b).
Proof.
  intros Hb. destruct b as [|pb|pb]; try lia.
  unfold Qdiv, Qinv, inject_Z, Qmult, Qplus, Qfloor. simpl Qnum. simpl Qden.
  f_equal; lia.
Qed.

Lemma round_div_of_Z (a b : Z) :
  0 < b ->
  JS.Math_round (JS.div (JS.of_Z a) (JS.of_Z b))
  = JS.of_Z (Qfloor (inject_Z a / inject_Z b + (1 # 2))).
Proof.
  intros Hb. rewrite div_of_Z_nonzero by lia. unfold JS.Math_round, JS.of_Z.
  do 2 f_equal. apply Qfloor_comp. rewrite Qred_correct. reflexivity.
Qed.

(** The idiom [sum / length || 0] never leaves NaN or an infinity. *)
Lemma average_or_zero_finite {A} (f : A -> Z) (l : list A) :
  JS.is_finite
    (JS.or_zero (JS.div (JS.of_Z (reduce_sum f l)) (JS.of_Z (len l)))) = true.
Proof.
  destruct l as [|x l]; [reflexivity|].
  rewrite div_of_Z_nonzero.
  - unfold JS.or_zero. destruct (JS.truthy _); reflexivity.
  - rewrite len_cons. pose proof (len_nonneg l). lia.
Qed.

Lemma average_or_zero_of_zero_sum {A} (f : A -> Z) (l : list A) :
  reduce_sum f l = 0 ->
  JS.or_zero (JS.div (JS.of_Z (reduce_sum f l)) (JS.of_Z (len l))) = JS.Fin 0.
Proof.
  intros ->. destruct l as [|x l]; [reflexivity|].
  rewrite div_of_Z_nonzero by (rewrite len_cons; pose proof (len_nonneg l); lia).
  rewrite Qred_zero; [reflexivity|].
  unfold Qdiv. apply Qmult_0_l.
Qed.

(** ** Stability of the sort *)

Lemma sort_insert_created_at (c : Z) (x : StudySession.t)
    (l : list StudySession.t) :
  created_at c (sort_insert byCreatedAtDesc x l) = created_at c (x :: l).
Proof.
  induction l as [|y l IH]; [reflexivity|].
  simpl sort_insert. unfold byCreatedAtDesc at 1.
  destruct (Z.leb_spec (StudySession.createdAt y - StudySession.createdAt x) 0)
    as [Hle|Hgt]; [reflexivity|].
  unfold created_at in *. simpl in *. rewrite IH.
  destruct (Z.eqb_spec (StudySession.createdAt x) c) as [Hx|Hx];
    destruct (Z.eqb_spec (StudySession.createdAt y) c) as [Hy|Hy];
    try reflexivity; lia.
Qed.

Lemma Array_sort_stable (c : Z) (l : list StudySession.t) :
  created_at c (Array_sort byCreatedAtDesc l) = created_at c l.
Proof.
  induction l as [|x l IH]; [reflexivity|].
  simpl Array_sort. rewrite sort_insert_created_at.
  unfold created_at in *. simpl. rewrite IH. reflexivity.
Qed.

(* ================================================================== *)
(** ** The claims about [GET /stats] *)

(** C1, as stated, fails: with two sessions stored oldest first, the
    [sessions] array is in a different order after the statistics have been
    computed. *)
Lemma C1_sessions_reordered :
  sessions (computeStats_store zone_UTC two_sessions [] "30d" 0) <> two_sessions.
Proof. vm_compute. discriminate. Qed.

(** C1, amended: computing the statistics leaves [chatMessages] as it was
    and sorts [sessions] in place: afterwards the array holds the same
    session records, in descending order of [createdAt], and sessions with
    the same [createdAt] keep their relative order. *)
Theorem C1_sessions_sorted_in_place
    (LocalTZA : Z -> bool -> Z) (ss : list StudySession.t)
    (cs : list ChatMessage.t) (p : string) (now : Z) :
  let st := computeStats_store LocalTZA ss cs p now in
  chatMessages st = cs /\
  Permutation ss (sessions st) /\
  StronglySorted newer_or_same (sessions st) /\
  (forall c, created_at c (sessions st) = created_at c ss).
Proof.
  cbv zeta. rewrite stats_store. simpl. repeat split.
  - apply Array_sort_perm.
  - apply Array_sort_sorted.
  - intros c. apply Array_sort_stable.
Qed.

(** A [sessions] array that is already newest first is left unchanged. *)
Lemma sessions_unchanged_when_sorted
    (LocalTZA : Z -> bool -> Z) (ss : list StudySession.t)
    (cs : list ChatMessage.t) (p : string) (now : Z) :
  StronglySorted newer_or_same ss ->
  computeStats_store LocalTZA ss cs p now = mkStore ss cs.
Proof. intros H. rewrite stats_store, Array_sort_fixpoint; auto. Qed.

(** C3, as stated, fails: two sessions of 1 and 2 minutes have the
    quotient 3/2, and the handler returns 2. *)
Lemma C3_quotient_is_rounded :
  let r := computeStats zone_UTC two_sessions [] "30d" 0 in
  0 < totalSessions r /\
  averageSessionLength r = JS.Fin 2 /\
  ~ JS.eqv (averageSessionLength r)
           (JS.Fin (inject_Z (totalStudyTime r) / inject_Z (totalSessions r))).
Proof.
  cbv zeta. split; [reflexivity|]. split; [reflexivity|].
  vm_compute. discriminate.
Qed.

(** C3, amended: [averageSessionLength] is the quotient
    [totalStudyTime / totalSessions] rounded to the nearest integer, a half
    going up, when there is a session, and 0 when there is none.  In integer
    arithmetic the rounded quotient is
    [(2 * totalStudyTime + totalSessions) / (2 * totalSessions)]. *)
Theorem C3_averageSessionLength_rounded
    (LocalTZA : Z -> bool -> Z) (ss : list StudySession.t)
    (cs : list ChatMessage.t) (p : string) (now : Z) :
  let r := computeStats LocalTZA ss cs p now in
  let T := totalStudyTime r in
  let n := totalSessions r in
  averageSessionLength r
  = (if 0 <? n
     then JS.of_Z (Qfloor (inject_Z T / inject_Z n + (1 # 2)))
     else JS.Fin 0) /\
  averageSessionLength r
  = (if 0 <? n then JS.of_Z ((2 * T + n) / (2 * n)) else JS.Fin 0).
Proof.
  cbv zeta. rewrite stats_totalSessions, stats_totalStudyTime,
    stats_averageSessionLength.
  destruct (Z.ltb_spec 0 (len ss)) as [Hn|Hn]; [|split; reflexivity].
  rewrite round_div_of_Z by exact Hn. split; [reflexivity|].
  rewrite Qfloor_half_up by exact Hn. reflexivity.
Qed.

(** C5: [recentSessions] has [min 5 n] elements, is in descending order of
    [createdAt], and together with some remainder makes up the input, no
    session of the remainder being newer than a session returned.  With 7
    sessions that is the 5 most recent. *)
Theorem C5_recentSessions_most_recent
    (LocalTZA : Z -> bool -> Z) (ss : list StudySession.t)
    (cs : list ChatMessage.t) (p : string) (now : Z) :
  let r := recentSessions (computeStats LocalTZA ss cs p now) in
  List.length r = Nat.min 5 (List.length ss) /\
  StronglySorted newer_or_same r /\
  exists rest,
    Permutation ss (r ++ rest) /\
    (forall a b, In a r -> In b rest -> newer_or_same a b).
Proof.
  cbv zeta. rewrite stats_recentSessions.
  set (sorted := Array_sort byCreatedAtDesc ss).
  assert (Hperm : Permutation ss sorted) by apply Array_sort_perm.
  assert (Hsorted : StronglySorted newer_or_same sorted) by apply Array_sort_sorted.
  rewrite <- (firstn_skipn 5 sorted) in Hsorted.
  destruct (StronglySorted_app_inv _ _ _ Hsorted) as [Hfirst Hcross].
  split; [|split; [exact Hfirst|]].
  - rewrite length_firstn, <- (Permutation_length Hperm). reflexivity.
  - exists (skipn 5 sorted). split; [|exact Hcross].
    rewrite firstn_skipn. exact Hperm.
Qed.

(** The scenario of C5 on seven sessions: the five newest, newest first. *)
Example recentSessions_of_seven :
  map StudySession._id
      (recentSessions (computeStats zone_UTC seven_sessions [] "30d" 0))
  = [3; 5; 7; 1; 4].
Proof. reflexivity. Qed.

(** C6: [totalStudyTime] is the sum of the sessions' durations, an absent
    duration counting as 0. *)
Theorem C6_totalStudyTime_sum
    (LocalTZA : Z -> bool -> Z) (ss : list StudySession.t)
    (cs : list ChatMessage.t) (p : string) (now : Z) :
  totalStudyTime (computeStats LocalTZA ss cs p now)
  = sumZ (map (fun s => absent_as_zero (StudySession.duration s)) ss).
Proof.
  rewrite stats_totalStudyTime, reduce_sum_sumZ. f_equal.
  apply map_ext. intros s. apply field_or_zero_absent.
Qed.

(** C8: with no sessions and no chat messages every counter is 0 and both
    lists are empty. *)
Theorem C8_empty_input
    (LocalTZA : Z -> bool -> Z) (p : string) (now : Z) :
  let r := computeStats LocalTZA [] [] p now in
  totalStudyTime r = 0 /\ totalSessions r = 0 /\ totalQuestions r = 0 /\
  subjectsStudied r = 0 /\ averageSessionLength r = JS.Fin 0 /\
  subjectStats r = [] /\ recentSessions r = [].
Proof. cbv zeta. repeat split. Qed.

(** ** Grouping by subject *)

Lemma sumZ_map_add {A} (a b : A -> Z) (l : list A) :
  sumZ (map (fun x => a x + b x) l) = sumZ (map a l) + sumZ (map b l).
Proof. induction l as [|x l IH]; simpl; lia. Qed.

Lemma sumZ_map_zero {A} (l : list A) : sumZ (map (fun _ => 0) l) = 0.
Proof. induction l as [|x l IH]; simpl; lia. Qed.

(** Over a duplicate-free list of keys, the terms selected by one key add
    up to the term of that key. *)
Lemma sumZ_indicator (k : string) (c : Z) (keys : list string) :
  NoDup keys ->
  sumZ (map (fun key => if String.eqb k key then c else 0) keys)
  = if existsb (String.eqb k) keys then c else 0.
Proof.
  induction 1 as [|key keys Hnotin Hnd IH]; [reflexivity|].
  simpl. rewrite IH. destruct (String.eqb_spec k key) as [->|Hne]; simpl.
  - destruct (existsb (String.eqb key) keys) eqn:E; [|lia].
    apply existsb_eqb_In in E. contradiction.
  - reflexivity.
Qed.

Lemma reduce_sum_filter_cons {A} (g : A -> Z) (f : A -> bool) (x : A)
    (l : list A) :
  reduce_sum g (filter f (x :: l))
  = (if f x then g x else 0) + reduce_sum g (filter f l).
Proof.
  simpl. destruct (f x); [apply reduce_sum_cons | reflexivity].
Qed.

Lemma group_sum (g : StudySession.t -> Z) (keys : list string)
    (l : list StudySession.t) :
  NoDup keys ->
  (forall s, In s l -> In (StudySession.subject s) keys) ->
  sumZ (map (fun key =>
               reduce_sum g
                 (filter (fun s => String.eqb (StudySession.subject s) key) l))
            keys)
  = reduce_sum g l.
Proof.
  intros Hnd. induction l as [|x l IH]; intros Hin.
  - simpl. apply sumZ_map_zero.
  - assert (E : existsb (String.eqb (StudySession.subject x)) keys = true)
      by (apply existsb_eqb_In, Hin; now left).
    rewrite (map_ext _ _
      (fun key => reduce_sum_filter_cons g
                    (fun s => String.eqb (StudySession.subject s) key) x l)).
    rewrite (sumZ_map_add
      (fun key => if String.eqb (StudySession.subject x) key then g x else 0)).
    rewrite sumZ_indicator, E by exact Hnd.
    rewrite IH by (intros s Hs; apply Hin; now right).
    symmetry. apply reduce_sum_cons.
Qed.

Lemma subjectStat_subject (st : Store) (l : list string) :
  map SubjectStat.subject (map (subjectStat st) l) = l.
Proof.
  induction l as [|x l IH]; [reflexivity|].
  simpl. now rewrite IH.
Qed.

Lemma sessions_of_listed_subject (ss : list StudySession.t) (subject : string) :
  In subject (map StudySession.subject ss) ->
  1 <= len (filter (fun s => String.eqb (StudySession.subject s) subject) ss).
Proof.
  intros H. apply in_map_iff in H as [s [Hs Hin]].
  assert (Hf : In s (filter (fun s => String.eqb (StudySession.subject s) subject) ss)).
  { apply filter_In. split; [exact Hin|]. rewrite Hs. apply String.eqb_refl. }
  destruct (filter _ ss) as [|y l]; [contradiction|].
  rewrite len_cons. pose proof (len_nonneg l). lia.
Qed.

(** C9: [subjectStats] has one entry per distinct subject of the sessions;
    an entry counts the sessions of its subject, at least one; the session
    counts add up to [totalSessions] and the times to [totalStudyTime]. *)
Theorem C9_subjectStats_partition
    (LocalTZA : Z -> bool -> Z) (ss : list StudySession.t)
    (cs : list ChatMessage.t) (p : string) (now : Z) :
  let r := computeStats LocalTZA ss cs p now in
  let stats := subjectStats r in
  NoDup (map SubjectStat.subject stats) /\
  (forall subject,
     In subject (map SubjectStat.subject stats)
     <-> In subject (map StudySession.subject ss)) /\
  Forall (fun e =>
            SubjectStat.sessions e
            = len (filter (fun s => String.eqb (StudySession.subject s)
                                               (SubjectStat.subject e)) ss)
            /\ 1 <= SubjectStat.sessions e) stats /\
  sumZ (map SubjectStat.sessions stats) = totalSessions r /\
  sumZ (map SubjectStat.totalTime stats) = totalStudyTime r.
Proof.
  cbv zeta. rewrite stats_subjectStats, stats_totalSessions, stats_totalStudyTime.
  rewrite subjectStat_subject.
  set (keys := Set_values (map StudySession.subject ss)).
  assert (Hnd : NoDup keys) by apply Set_values_NoDup.
  assert (Hin : forall s, In s ss -> In (StudySession.subject s) keys).
  { intros s Hs. apply Set_values_In, in_map, Hs. }
  split; [exact Hnd|]. split; [intros subject; apply Set_values_In|].
  split; [|split].
  - apply Forall_forall. intros e He.
    apply in_map_iff in He as [subject [<- Hsub]]. simpl.
    split; [reflexivity|].
    apply sessions_of_listed_subject, Set_values_In, Hsub.
  - rewrite map_map. simpl. rewrite len_reduce_sum.
    rewrite <- (group_sum (fun _ => 1) keys ss Hnd Hin).
    f_equal. apply map_ext. intros key. apply len_reduce_sum.
  - rewrite map_map. simpl. apply (group_sum duration_or_zero keys ss Hnd Hin).
Qed.

(** ** Average ratings *)

Lemma no_ratings_sum_zero (l : list StudySession.t) :
  flat_map (fun s => match StudySession.rating s with
                     | Some r => [r]
                     | None => []
                     end) l = [] ->
  reduce_sum rating_or_zero l = 0.
Proof.
  induction l as [|x l IH]; [reflexivity|].
  simpl. rewrite reduce_sum_cons. unfold rating_or_zero at 1.
  destruct (StudySession.rating x); simpl; [discriminate|].
  intros H. rewrite IH by exact H. reflexivity.
Qed.

Lemma or_zero_finite_inv (a : JS.number) :
  JS.is_finite a = true -> exists q, a = JS.Fin q.
Proof. destruct a as [q| |s]; try discriminate. intros _. now exists q. Qed.

Lemma subject_averageRating_finite (subject : string) (l : list StudySession.t) :
  JS.is_finite (sr_averageRating (get_subject subject l)) = true.
Proof.
  unfold get_subject, sr_averageRating.
  destruct (or_zero_finite_inv _ (average_or_zero_finite rating_or_zero l))
    as [q ->].
  reflexivity.
Qed.

(** C2 fails on the code: of two DSA sessions, one rated 4 and one not
    rated, the mean of the ratings is 4, and the entry's [averageRating] is
    2, the sum of the ratings over the number of sessions. *)
Theorem C2_unrated_sessions_lower_the_average :
  let r := computeStats zone_UTC two_sessions [] "30d" 0 in
  ratings_of "DSA" two_sessions = [4] /\
  (mean (ratings_of "DSA" two_sessions) == 4)%Q /\
  option_map SubjectStat.sessions (stat_of "DSA" (subjectStats r)) = Some 2 /\
  option_map SubjectStat.averageRating (stat_of "DSA" (subjectStats r))
  = Some (JS.Fin 2).
Proof. cbv zeta. repeat split. Qed.

(** C7: the three averages that reach a response are finite numbers for
    every input; with no session at all the average session length is 0;
    for a subject without sessions the subject average is 0; and an entry
    of [subjectStats] whose subject has no rating has the average 0. *)
Theorem C7_no_NaN_in_output
    (LocalTZA : Z -> bool -> Z) (ss : list StudySession.t)
    (cs : list ChatMessage.t) (p : string) (now : Z)
    (subject : string) (l : list StudySession.t) :
  let r := computeStats LocalTZA ss cs p now in
  JS.is_finite (averageSessionLength r) = true /\
  Forall (fun e => JS.is_finite (SubjectStat.averageRating e) = true)
         (subjectStats r) /\
  JS.is_finite (sr_averageRating (get_subject subject l)) = true /\
  averageSessionLength (computeStats LocalTZA [] cs p now) = JS.Fin 0 /\
  sr_averageRating (get_subject subject []) = JS.Fin 0 /\
  Forall (fun e => match ratings_of (SubjectStat.subject e) ss with
                   | [] => SubjectStat.averageRating e = JS.Fin 0
                   | _ :: _ => True
                   end)
         (subjectStats r).
Proof.
  cbv zeta. rewrite stats_subjectStats, stats_averageSessionLength.
  split; [|split; [|split; [|split; [|split]]]].
  - destruct (Z.ltb_spec 0 (len ss)) as [Hn|Hn]; [|reflexivity].
    rewrite div_of_Z_nonzero by lia. reflexivity.
  - apply Forall_forall. intros e He. apply in_map_iff in He as [sub [<- _]].
    apply average_or_zero_finite.
  - apply subject_averageRating_finite.
  - reflexivity.
  - reflexivity.
  - apply Forall_forall. intros e He. apply in_map_iff in He as [sub [<- _]].
    simpl SubjectStat.subject. destruct (ratings_of sub ss) eqn:E; [|exact I].
    apply average_or_zero_of_zero_sum, no_ratings_sum_zero, E.
Qed.

(* ================================================================== *)
(** ** The calendar *)

Lemma doe_bounds (doe : Z) :
  0 <= doe < 146097 ->
  0 <= Date.yoe_of doe <= 399 /\ 0 <= Date.doy_of doe <= 365.
Proof.
  intros H. unfold Date.doy_of, Date.yoe_of.
  assert (C : doe / 36524 = 0 \/ doe / 36524 = 1 \/ doe / 36524 = 2 \/
              doe / 36524 = 3 \/ doe / 36524 = 4)
    by (Z.div_mod_to_equations; lia).
  assert (C3 : doe = 146096 \/ doe < 146096) by lia.
  destruct C3 as [->|C3]; [vm_compute; intuition congruence|].
  assert (Q3 : doe / 146096 = 0) by (Z.div_mod_to_equations; lia).
  rewrite Q3.
  destruct C as [C|[C|[C|[C|C]]]]; rewrite C; Z.div_mod_to_equations; lia.
Qed.

(** Going from a day number to a calendar date and back is the identity,
    and the month is a month. *)
Lemma civil_roundtrip (z : Z) :
  let '(y, m, d) := Date.civil_from_days z in
  1 <= m <= 12 /\ Date.days_from_civil y m d = z.
Proof.
  unfold Date.civil_from_days. cbv zeta.
  set (z' := z + 719468). set (era := z' / 146097).
  set (doe := z' - era * 146097).
  assert (Hd : 0 <= doe < 146097)
    by (subst doe era; Z.div_mod_to_equations; lia).
  destruct (doe_bounds doe Hd) as [Hy Hdoy].
  set (yoe := Date.yoe_of doe) in *.
  assert (Edoy : Date.doy_of doe = doe - (365 * yoe + yoe / 4 - yoe / 100))
    by reflexivity.
  set (doy := Date.doy_of doe) in *. clearbody yoe doy.
  set (mp := (5 * doy + 2) / 153).
  assert (Hmp : 0 <= mp <= 11) by (subst mp; Z.div_mod_to_equations; lia).
  assert (Hz : z = era * 146097 + doe - 719468) by (subst doe z'; lia).
  unfold Date.days_from_civil.
  destruct (Z.ltb_spec mp 10) as [Hlt|Hge].
  - destruct (Z.leb_spec (mp + 3) 2) as [?|_]; [lia|].
    destruct (Z.ltb_spec 2 (mp + 3)) as [_|?]; [|lia].
    split; [lia|].
    replace (mp + 3 - 3) with mp by lia.
    replace ((yoe + era * 400) / 400) with era
      by (Z.div_mod_to_equations; lia).
    subst mp. Z.div_mod_to_equations. lia.
  - destruct (Z.leb_spec (mp - 9) 2) as [_|?]; [|lia].
    destruct (Z.ltb_spec 2 (mp - 9)) as [?|_]; [lia|].
    split; [lia|].
    replace (mp - 9 + 9) with mp by lia.
    replace (yoe + era * 400 + 1 - 1) with (yoe + era * 400) by lia.
    replace ((yoe + era * 400) / 400) with era
      by (Z.div_mod_to_equations; lia).
    subst mp. Z.div_mod_to_equations. lia.
Qed.

(** From 1970 on the year is not one of the two-digit years that
    [new Date(y, m, d)] reads as 19yy. *)
Lemma civil_year_from_epoch (z : Z) :
  0 <= z -> let '(y, _, _) := Date.civil_from_days z in 1600 <= y.
Proof.
  intros Hz. unfold Date.civil_from_days. cbv zeta.
  set (z' := z + 719468). set (era := z' / 146097).
  set (doe := z' - era * 146097).
  assert (Hd : 0 <= doe < 146097)
    by (subst doe era; Z.div_mod_to_equations; lia).
  assert (He : 4 <= era) by (subst era z'; Z.div_mod_to_equations; lia).
  destruct (doe_bounds doe Hd) as [Hy _].
  destruct (_ <=? 2); lia.
Qed.

(** The calendar fields of a time value name its day. *)
Lemma MakeDay_of_fields (t : Z) :
  Date.MakeDay (Date.YearFromTime t) (Date.MonthFromTime t) (Date.DateFromTime t)
  = Date.Day t.
Proof.
  unfold Date.MakeDay, Date.YearFromTime, Date.MonthFromTime, Date.DateFromTime.
  pose proof (civil_roundtrip (Date.Day t)) as H.
  destruct (Date.civil_from_days (Date.Day t)) as [[y m] d].
  destruct H as [Hm H].
  replace ((m - 1) / 12) with 0 by (Z.div_mod_to_equations; lia).
  replace ((m - 1) mod 12 + 1) with m by (Z.div_mod_to_equations; lia).
  rewrite Z.add_0_r, <- H.
  unfold Date.days_from_civil. cbv zeta. lia.
Qed.

Section LocalDay.

Variable LocalTZA : Z -> bool -> Z.

(** Local midnight of the local day of [t], in any zone. *)
Lemma local_midnight (t : Z) :
  0 <= Date.LocalTime LocalTZA t ->
  Date.new_Date_ymd LocalTZA (Date.getFullYear LocalTZA t)
    (Date.getMonth LocalTZA t) (Date.getDate LocalTZA t)
  = Date.UTC LocalTZA (Date.Day (Date.LocalTime LocalTZA t) * Date.msPerDay).
Proof.
  intros Hpos. unfold Date.new_Date_ymd, Date.getFullYear, Date.getMonth,
    Date.getDate.
  set (lt := Date.LocalTime LocalTZA t) in *.
  assert (Hy : 1600 <= Date.YearFromTime lt).
  { unfold Date.YearFromTime.
    assert (Hday : 0 <= Date.Day lt)
      by (unfold Date.Day, Date.msPerDay; apply Z.div_pos; lia).
    pose proof (civil_year_from_epoch _ Hday) as H.
    destruct (Date.civil_from_days (Date.Day lt)) as [[y m] d]. exact H. }
  replace ((0 <=? Date.YearFromTime lt) && (Date.YearFromTime lt <=? 99))
    with false
    by (symmetry; apply andb_false_iff; right; apply Z.leb_gt; lia).
  rewrite MakeDay_of_fields. unfold Date.MakeDate. now rewrite Z.add_0_r.
Qed.

End LocalDay.

(* ================================================================== *)
(** ** The weekly activity *)

Lemma getWeeklyActivity_map (LocalTZA : Z -> bool -> Z) (now : Z)
    (l : list StudySession.t) :
  getWeeklyActivity LocalTZA now l
  = map (weeklyBucket LocalTZA now l) [6; 5; 4; 3; 2; 1; 0].
Proof. reflexivity. Qed.

(** There are seven buckets whatever the zone. *)
Lemma getWeeklyActivity_length (LocalTZA : Z -> bool -> Z) (now : Z)
    (l : list StudySession.t) :
  List.length (getWeeklyActivity LocalTZA now l) = 7%nat.
Proof. reflexivity. Qed.

Lemma local_day_shift (tz t i : Z) :
  local_day tz (t - i * 24 * 60 * 60 * 1000) = local_day tz t - i.
Proof.
  unfold local_day, Date.Day, Date.msPerDay.
  replace (t - i * 24 * 60 * 60 * 1000 + tz) with (t + tz + (- i) * 86400000)
    by lia.
  rewrite Z.div_add by lia. lia.
Qed.

(** The half-open interval of a bucket is the local day. *)
Lemma within_local_day (tz day c : Z) :
  within (local_day_start tz day)
         (local_day_start tz day + 24 * 60 * 60 * 1000) c
  = (local_day tz c =? day).
Proof.
  unfold within, local_day_start, local_day, Date.Day, Date.msPerDay.
  destruct (Z.eqb_spec ((c + tz) / 86400000) day) as [E|E].
  - apply andb_true_iff. rewrite Z.leb_le, Z.ltb_lt.
    Z.div_mod_to_equations. lia.
  - apply andb_false_iff. rewrite Z.leb_gt, Z.ltb_ge.
    Z.div_mod_to_equations. lia.
Qed.

(** In a fixed zone, from one week after the epoch on, the bucket of turn
    [i] is the bucket of the local day [i] days before today. *)
Lemma weeklyBucket_fixed_zone (tz now i : Z) (l : list StudySession.t) :
  0 <= now - i * 24 * 60 * 60 * 1000 + tz ->
  weeklyBucket (Date.fixed_zone tz) now l i
  = bucket_of_day tz (local_day tz now - i) l.
Proof.
  intros Hpos. unfold weeklyBucket. cbv zeta.
  rewrite local_midnight by exact Hpos.
  unfold Date.UTC, Date.LocalTime, Date.fixed_zone.
  fold (local_day tz (now - i * 24 * 60 * 60 * 1000)).
  rewrite local_day_shift.
  fold (local_day_start tz (local_day tz now - i)).
  unfold bucket_of_day, created_on.
  rewrite (filter_ext _ _
    (fun s => within_local_day tz (local_day tz now - i)
                (StudySession.createdAt s))).
  reflexivity.
Qed.

Lemma getWeeklyActivity_fixed_zone (tz now : Z) (l : list StudySession.t) :
  6 * Date.msPerDay <= now + tz ->
  getWeeklyActivity (Date.fixed_zone tz) now l
  = map (fun i => bucket_of_day tz (local_day tz now - i) l)
        [6; 5; 4; 3; 2; 1; 0].
Proof.
  intros H. unfold Date.msPerDay in H. rewrite getWeeklyActivity_map.
  apply map_ext_in. intros i Hi. apply weeklyBucket_fixed_zone.
  simpl in Hi. lia.
Qed.

(** Counting by day over a range of days. *)
Lemma created_between_first (tz first last : Z) (l : list StudySession.t) :
  first <= last ->
  len (created_between tz first last l)
  = len (created_on tz first l) + len (created_between tz (first + 1) last l).
Proof.
  intros Hle. unfold created_between, created_on.
  induction l as [|s l IH]; [reflexivity|].
  cbn [filter]. set (d := local_day tz (StudySession.createdAt s)).
  destruct (Z.eqb_spec d first) as [E|E];
    destruct (Z.leb_spec first d); destruct (Z.leb_spec d last);
    destruct (Z.leb_spec (first + 1) d); cbn [andb]; rewrite ?len_cons;
    try lia.
Qed.

Lemma created_between_single (tz day : Z) (l : list StudySession.t) :
  created_between tz day day l = created_on tz day l.
Proof.
  unfold created_between, created_on. apply filter_ext. intros s.
  set (d := local_day tz (StudySession.createdAt s)).
  destruct (Z.eqb_spec d day); destruct (Z.leb_spec day d);
    destruct (Z.leb_spec d day); simpl; try reflexivity; lia.
Qed.

Lemma len_filter_le {A} (f : A -> bool) (l : list A) :
  len (filter f l) <= len l.
Proof.
  induction l as [|x l IH]; simpl; [lia|].
  destruct (f x); rewrite ?len_cons; lia.
Qed.

(** In a fixed zone the session counts of the seven buckets add up to the
    number of sessions created on the seven local days that end today, so
    to no more than the number of sessions. *)
Lemma weekly_sessions_total_fixed_zone (tz now : Z) (l : list StudySession.t) :
  6 * Date.msPerDay <= now + tz ->
  let today := local_day tz now in
  sumZ (map WeeklyBucket.sessions (getWeeklyActivity (Date.fixed_zone tz) now l))
  = len (created_between tz (today - 6) today l)
  /\ sumZ (map WeeklyBucket.sessions
             (getWeeklyActivity (Date.fixed_zone tz) now l)) <= len l.
Proof.
  intros H today.
  assert (E : sumZ (map WeeklyBucket.sessions
                      (getWeeklyActivity (Date.fixed_zone tz) now l))
              = len (created_between tz (today - 6) today l)).
  { rewrite getWeeklyActivity_fixed_zone by exact H. fold today. simpl.
    rewrite (created_between_first tz (today - 6)) by lia.
    replace (today - 6 + 1) with (today - 5) by lia.
    rewrite (created_between_first tz (today - 5)) by lia.
    replace (today - 5 + 1) with (today - 4) by lia.
    rewrite (created_between_first tz (today - 4)) by lia.
    replace (today - 4 + 1) with (today - 3) by lia.
    rewrite (created_between_first tz (today - 3)) by lia.
    replace (today - 3 + 1) with (today - 2) by lia.
    rewrite (created_between_first tz (today - 2)) by lia.
    replace (today - 2 + 1) with (today - 1) by lia.
    rewrite (created_between_first tz (today - 1)) by lia.
    replace (today - 1 + 1) with today by lia.
    rewrite created_between_single, Z.sub_0_r. lia. }
  split; [exact E|]. rewrite E. apply len_filter_le.
Qed.

(** In a fixed zone no two buckets count the same session: a session is
    created on one local day. *)
Lemma created_on_disjoint (tz day day' : Z) (l : list StudySession.t)
    (s : StudySession.t) :
  In s (created_on tz day l) -> In s (created_on tz day' l) -> day = day'.
Proof.
  unfold created_on. rewrite !filter_In, !Z.eqb_eq. intros [_ H] [_ H']. lia.
Qed.

(** The date of a bucket is the UTC date of the local midnight: the local
    day itself in a zone at or behind UTC, the day before in a zone ahead
    of UTC. *)
Lemma bucket_date_west (tz day : Z) (l : list StudySession.t) :
  - Date.msPerDay < tz <= 0 ->
  WeeklyBucket.date (bucket_of_day tz day l)
  = Date.toISOString_date (day * Date.msPerDay).
Proof.
  intros H. unfold bucket_of_day, local_day_start, Date.toISOString_date. simpl.
  replace (Date.Day (day * Date.msPerDay - tz)) with (Date.Day (day * Date.msPerDay));
    [reflexivity|].
  unfold Date.Day, Date.msPerDay in *. Z.div_mod_to_equations. lia.
Qed.

Lemma bucket_date_east (tz day : Z) (l : list StudySession.t) :
  0 < tz <= Date.msPerDay ->
  WeeklyBucket.date (bucket_of_day tz day l)
  = Date.toISOString_date ((day - 1) * Date.msPerDay).
Proof.
  intros H. unfold bucket_of_day, local_day_start, Date.toISOString_date. simpl.
  replace (Date.Day (day * Date.msPerDay - tz))
    with (Date.Day ((day - 1) * Date.msPerDay)); [reflexivity|].
  unfold Date.Day, Date.msPerDay in *. Z.div_mod_to_equations. lia.
Qed.

(** In a fixed zone at or behind UTC the seven dates are the seven local
    days that end today, oldest first. *)
Lemma weekly_dates_fixed_zone_west (tz now : Z) (l : list StudySession.t) :
  6 * Date.msPerDay <= now + tz ->
  - Date.msPerDay < tz <= 0 ->
  map WeeklyBucket.date (getWeeklyActivity (Date.fixed_zone tz) now l)
  = map (fun i => Date.toISOString_date ((local_day tz now - i) * Date.msPerDay))
        [6; 5; 4; 3; 2; 1; 0].
Proof.
  intros H Htz. rewrite getWeeklyActivity_fixed_zone by exact H.
  rewrite map_map. apply map_ext. intros i. apply bucket_date_west, Htz.
Qed.

(** C4 fails on the code: on a host in India, at noon of 15 January 2024,
    the seven dates run from 8 to 14 January; the day that contains [now],
    15 January both locally and in UTC, is not among them. *)
Theorem C4_dates_end_yesterday_east_of_UTC :
  (Date.getFullYear zone_IST noon_IST_2024_01_15,
   Date.getMonth zone_IST noon_IST_2024_01_15,
   Date.getDate zone_IST noon_IST_2024_01_15) = (2024, 0, 15) /\
  Date.toISOString_date noon_IST_2024_01_15 = "2024-01-15"%string /\
  map WeeklyBucket.date (getWeeklyActivity zone_IST noon_IST_2024_01_15 [])
  = ["2024-01-08"; "2024-01-09"; "2024-01-10"; "2024-01-11"; "2024-01-12";
     "2024-01-13"; "2024-01-14"]%string.
Proof. vm_compute. repeat split. Qed.

(** C10 fails on the code: on a host on US Eastern time, at 23:30 of
    3 November 2024, the day the clocks go back, the turns [i = 1] and
    [i = 0] both land on 3 November; a session of that day is counted in
    two buckets, and the counts add up to 2 for 1 session. *)
Theorem C10_day_counted_twice_when_clocks_go_back :
  let week := getWeeklyActivity zone_Eastern_autumn_2024
                late_evening_Eastern_2024_11_03 one_session_2024_11_03 in
  map (fun b => (WeeklyBucket.date b, WeeklyBucket.sessions b)) week
  = [("2024-10-29", 0); ("2024-10-30", 0); ("2024-10-31", 0);
     ("2024-11-01", 0); ("2024-11-02", 0); ("2024-11-03", 1);
     ("2024-11-03", 1)]%string /\
  sumZ (map WeeklyBucket.sessions week) = 2 /\
  len one_session_2024_11_03 = 1.
Proof. vm_compute. repeat split. Qed.

(* ================================================================== *)
(** ** What the average rating is *)

Lemma or_zero_eqv (q q' : Q) :
  (q == q')%Q -> JS.eqv (JS.or_zero (JS.Fin q)) (JS.Fin q').
Proof.
  intros H. unfold JS.or_zero, JS.truthy, JS.is_zero.
  destruct (Qeq_bool q 0) eqn:E; simpl; [|exact H].
  apply Qeq_bool_eq in E. rewrite <- H, E. reflexivity.
Qed.

Lemma rating_sum_present (l : list StudySession.t) :
  reduce_sum rating_or_zero l
  = sumZ (flat_map (fun s => match StudySession.rating s with
                             | Some r => [r]
                             | None => []
                             end) l).
Proof.
  induction l as [|s l IH]; [reflexivity|].
  rewrite reduce_sum_cons, IH. unfold rating_or_zero.
  rewrite field_or_zero_absent. simpl.
  destruct (StudySession.rating s); simpl; lia.
Qed.

(** The entry of a subject that has sessions: the sum of the ratings that
    are present over the number of the subject's sessions, rated or not. *)
Lemma subjectStat_averageRating (ss : list StudySession.t)
    (cs : list ChatMessage.t) (subject : string) :
  let group :=
    filter (fun s => String.eqb (StudySession.subject s) subject) ss in
  group <> [] ->
  JS.eqv (SubjectStat.averageRating (subjectStat (mkStore ss cs) subject))
         (JS.Fin (inject_Z (sumZ (ratings_of subject ss)) / inject_Z (len group))).
Proof.
  intros group Hne. unfold subjectStat.
  cbn [SubjectStat.averageRating sessions]. fold group. apply len_pos_iff in Hne.
  rewrite div_of_Z_nonzero by lia.
  apply or_zero_eqv.
  rewrite Qred_correct, rating_sum_present. reflexivity.
Qed.

(** When every session of the subject is rated, that is the mean of the
    ratings. *)
Lemma subjectStat_averageRating_all_rated (ss : list StudySession.t)
    (cs : list ChatMessage.t) (subject : string) :
  let group :=
    filter (fun s => String.eqb (StudySession.subject s) subject) ss in
  group <> [] ->
  len (ratings_of subject ss) = len group ->
  JS.eqv (SubjectStat.averageRating (subjectStat (mkStore ss cs) subject))
         (JS.Fin (mean (ratings_of subject ss))).
Proof.
  intros group Hne Hall.
  pose proof (subjectStat_averageRating ss cs subject Hne) as H.
  assert (Hpos : 0 < len group) by (apply len_pos_iff; exact Hne).
  fold group in H. rewrite <- Hall in H, Hpos.
  unfold mean. destruct (ratings_of subject ss) as [|r rs] eqn:E.
  - unfold len in Hpos. simpl in Hpos. lia.
  - exact H.
Qed.

(* ================================================================== *)
(** * Further properties of the routes *)

(** ** The statistics do not depend on the order of the arrays *)

Lemma filter_perm {A} (f : A -> bool) (l l' : list A) :
  Permutation l l' -> Permutation (filter f l) (filter f l').
Proof.
  induction 1 as [|x l l' _ IH|x y l|l l' l'' _ IH1 _ IH2]; simpl.
  - constructor.
  - destruct (f x); [now constructor | exact IH].
  - destruct (f x), (f y); try apply Permutation_refl. apply perm_swap.
  - eapply perm_trans; eassumption.
Qed.

Lemma len_perm {A} (l l' : list A) : Permutation l l' -> len l = len l'.
Proof. intros H. unfold len. now rewrite (Permutation_length H). Qed.

Lemma weeklyBucket_perm (LocalTZA : Z -> bool -> Z) (now i : Z)
    (l l' : list StudySession.t) :
  Permutation l l' ->
  weeklyBucket LocalTZA now l i = weeklyBucket LocalTZA now l' i.
Proof.
  intros H. unfold weeklyBucket. cbv zeta.
  set (f := fun session : StudySession.t => _).
  pose proof (filter_perm f l l' H) as Hf.
  now rewrite (len_perm _ _ Hf), (reduce_sum_perm duration_or_zero _ _ Hf).
Qed.

Lemma getWeeklyActivity_perm (LocalTZA : Z -> bool -> Z) (now : Z)
    (l l' : list StudySession.t) :
  Permutation l l' ->
  getWeeklyActivity LocalTZA now l = getWeeklyActivity LocalTZA now l'.
Proof.
  intros H. rewrite !getWeeklyActivity_map. apply map_ext. intros i.
  apply weeklyBucket_perm, H.
Qed.

(** X1: the weekly activity of a response is the weekly activity of
    the sessions as they were fetched: sorting the array in place before
    [getWeeklyActivity] runs changes no bucket, in any zone. *)
Theorem weeklyActivity_unaffected_by_sort
    (LocalTZA : Z -> bool -> Z) (ss : list StudySession.t)
    (cs : list ChatMessage.t) (p : string) (now : Z) :
  weeklyActivity (computeStats LocalTZA ss cs p now)
  = getWeeklyActivity LocalTZA now ss.
Proof.
  rewrite stats_weeklyActivity. symmetry.
  apply getWeeklyActivity_perm, Array_sort_perm.
Qed.

(** ** Counters of [GET /stats] *)

Lemma NoDup_len_le (l l' : list string) :
  NoDup l -> incl l l' -> len l <= len l'.
Proof.
  intros Hnd Hincl. unfold len.
  pose proof (NoDup_incl_length Hnd Hincl). lia.
Qed.

(** X2: [subjectsStudied] is the number of entries of [subjectStats];
    it is at most [totalSessions], and it is 0 exactly when there is no
    session. *)
Theorem subjectsStudied_counts_entries
    (LocalTZA : Z -> bool -> Z) (ss : list StudySession.t)
    (cs : list ChatMessage.t) (p : string) (now : Z) :
  let r := computeStats LocalTZA ss cs p now in
  subjectsStudied r = len (subjectStats r) /\
  0 <= subjectsStudied r <= totalSessions r /\
  (subjectsStudied r = 0 <-> totalSessions r = 0).
Proof.
  cbv zeta. rewrite stats_totalSessions, stats_subjectStats.
  change (subjectsStudied (computeStats LocalTZA ss cs p now))
    with (len (Set_values (map StudySession.subject ss))).
  set (keys := Set_values (map StudySession.subject ss)).
  assert (Hle : len keys <= len ss).
  { replace (len ss) with (len (map StudySession.subject ss))
      by (unfold len; now rewrite length_map).
    apply NoDup_len_le; [apply Set_values_NoDup|].
    intros x Hx. now apply Set_values_In. }
  split; [unfold len; now rewrite length_map|].
  split; [pose proof (len_nonneg keys); lia|].
  split; intros H.
  - destruct ss as [|s ss']; [reflexivity|]. exfalso.
    assert (Hin : In (StudySession.subject s) keys)
      by (apply Set_values_In; now left).
    destruct keys as [|k keys']; [contradiction|].
    rewrite len_cons in H. pose proof (len_nonneg keys'). lia.
  - pose proof (len_nonneg keys). lia.
Qed.

Lemma group_len_chat (keys : list string) (cs : list ChatMessage.t) :
  NoDup keys ->
  sumZ (map (fun key =>
               len (filter (fun msg => String.eqb (ChatMessage.subject msg) key)
                           cs)) keys)
  = len (filter (fun msg => existsb (String.eqb (ChatMessage.subject msg)) keys)
                cs).
Proof.
  intros Hnd. induction cs as [|m cs IH].
  - simpl. apply sumZ_map_zero.
  - cbn [filter].
    rewrite (map_ext
      (fun key => len (if String.eqb (ChatMessage.subject m) key
                       then m :: filter (fun msg => String.eqb (ChatMessage.subject msg) key) cs
                       else filter (fun msg => String.eqb (ChatMessage.subject msg) key) cs))
      (fun key => (if String.eqb (ChatMessage.subject m) key then 1 else 0)
                  + len (filter (fun msg => String.eqb (ChatMessage.subject msg) key) cs)))
      by (intros key; destruct (String.eqb _ key); rewrite ?len_cons; lia).
    rewrite (sumZ_map_add
      (fun key => if String.eqb (ChatMessage.subject m) key then 1 else 0)).
    rewrite sumZ_indicator, IH by exact Hnd.
    destruct (existsb _ keys); rewrite ?len_cons; lia.
Qed.

Lemma existsb_eqb_ext (x : string) (l l' : list string) :
  (forall y, In y l <-> In y l') ->
  existsb (String.eqb x) l = existsb (String.eqb x) l'.
Proof.
  intros H. destruct (existsb (String.eqb x) l) eqn:E; symmetry.
  - apply existsb_eqb_In. apply H. now apply existsb_eqb_In.
  - destruct (existsb (String.eqb x) l') eqn:E'; [|reflexivity].
    apply existsb_eqb_In in E'. apply H in E'. apply existsb_eqb_In in E'.
    congruence.
Qed.

(** X3: the [questions] of an entry count the chat messages of its
    subject, whoever wrote them; over all entries they add up to the number
    of chat messages whose subject is the subject of some session, so to
    no more than the number of chat messages. *)
Theorem questions_add_up_to_messages_of_studied_subjects
    (LocalTZA : Z -> bool -> Z) (ss : list StudySession.t)
    (cs : list ChatMessage.t) (p : string) (now : Z) :
  let stats := subjectStats (computeStats LocalTZA ss cs p now) in
  Forall (fun e =>
            SubjectStat.questions e
            = len (filter (fun msg => String.eqb (ChatMessage.subject msg)
                                                 (SubjectStat.subject e)) cs))
         stats /\
  sumZ (map SubjectStat.questions stats) = len (about_studied_subject ss cs) /\
  sumZ (map SubjectStat.questions stats) <= len cs.
Proof.
  cbv zeta. rewrite stats_subjectStats.
  assert (E : sumZ (map SubjectStat.questions
                      (map (subjectStat (mkStore ss cs))
                           (Set_values (map StudySession.subject ss))))
              = len (about_studied_subject ss cs)).
  { rewrite map_map. cbn [subjectStat SubjectStat.questions chatMessages].
    rewrite group_len_chat by apply Set_values_NoDup.
    unfold about_studied_subject. f_equal. apply filter_ext. intros msg.
    apply existsb_eqb_ext. intros y. apply Set_values_In. }
  split; [|split; [exact E|]].
  - apply Forall_forall. intros e He.
    apply in_map_iff in He as [subject [<- _]]. reflexivity.
  - rewrite E. apply len_filter_le.
Qed.

(** ** Bounds of the averages *)

Lemma reduce_sum_bounds {A} (f : A -> Z) (lo hi : Z) (l : list A) :
  Forall (fun x => lo <= f x <= hi) l ->
  len l * lo <= reduce_sum f l <= len l * hi.
Proof.
  induction 1 as [|x l Hx _ IH]; [rewrite reduce_sum_nil; unfold len; simpl; lia|].
  rewrite reduce_sum_cons, len_cons. lia.
Qed.

Lemma half_up_between (T n lo hi : Z) :
  0 < n -> n * lo <= T <= n * hi -> lo <= (2 * T + n) / (2 * n) <= hi.
Proof.
  intros Hn [Hlo Hhi]. split.
  - apply Z.div_le_lower_bound; nia.
  - apply Z.lt_succ_r. apply Z.div_lt_upper_bound; nia.
Qed.

(** X4: when every session lasted between [lo] and [hi] minutes, an
    absent duration counting as 0, and there is a session, the average
    session length is an integer between [lo] and [hi]. *)
Theorem averageSessionLength_between
    (LocalTZA : Z -> bool -> Z) (ss : list StudySession.t)
    (cs : list ChatMessage.t) (p : string) (now lo hi : Z) :
  ss <> [] ->
  Forall (fun s => lo <= absent_as_zero (StudySession.duration s) <= hi) ss ->
  exists a,
    averageSessionLength (computeStats LocalTZA ss cs p now) = JS.of_Z a
    /\ lo <= a <= hi.
Proof.
  intros Hne Hall. apply len_pos_iff in Hne.
  exists ((2 * reduce_sum duration_or_zero ss + len ss) / (2 * len ss)).
  split.
  - rewrite stats_averageSessionLength.
    destruct (Z.ltb_spec 0 (len ss)) as [_|?]; [|lia].
    rewrite round_div_of_Z, Qfloor_half_up by exact Hne. reflexivity.
  - apply half_up_between; [exact Hne|].
    apply reduce_sum_bounds.
    eapply Forall_impl; [|exact Hall]. intros s Hs. unfold duration_or_zero.
    now rewrite field_or_zero_absent.
Qed.




Lemma or_zero_Fin (x : Q) :
  exists q, JS.or_zero (JS.Fin x) = JS.Fin q /\ (q == x)%Q.
Proof.
  unfold JS.or_zero, JS.truthy, JS.is_zero.
  destruct (Qeq_bool x 0) eqn:E; simpl.
  - exists 0%Q. split; [reflexivity|]. apply Qeq_bool_eq in E. now symmetry.
  - exists x. split; reflexivity.
Qed.





(** ** [GET /subject/:subject] *)

(** X6: the topics of the subject page are the distinct topics of the
    sessions returned, each once; [topicsCovered] is their number, at most
    [totalSessions]; and the sessions are passed on as they were found. *)
Theorem get_subject_topics (subject : string) (l : list StudySession.t) :
  let r := get_subject subject l in
  NoDup (sr_topics r) /\
  (forall t, In t (sr_topics r) <-> exists s, In s l /\ StudySession.topic s = t) /\
  sr_topicsCovered r = len (sr_topics r) /\
  sr_topicsCovered r <= sr_totalSessions r /\
  sr_sessions r = l.
Proof.
  cbv zeta. unfold get_subject. cbn.
  split; [apply Set_values_NoDup|]. split; [|split; [reflexivity|split; [|reflexivity]]].
  - intros t. rewrite Set_values_In, in_map_iff. split; intros [s H]; exists s; tauto.
  - replace (len l) with (len (map StudySession.topic l))
      by (unfold len; now rewrite length_map).
    apply NoDup_len_le; [apply Set_values_NoDup|].
    intros x Hx. now apply Set_values_In.
Qed.

Lemma Qfloor_tenths_half_up (a b : Z) :
  0 < b ->
  Qfloor (inject_Z a / inject_Z b * 10 + (1 # 2)) = (20 * a + b) / (2 * b).
Proof.
  intros Hb. destruct b as [|pb|pb]; try lia.
  unfold Qdiv, Qinv, inject_Z, Qmult, Qplus, Qfloor. simpl Qnum. simpl Qden.
  f_equal; lia.
Qed.

Lemma round_to_tenths (x : Q) (a b : Z) :
  0 < b -> (x == inject_Z a / inject_Z b)%Q ->
  JS.div (JS.Math_round (JS.mul (JS.Fin x) (JS.Fin 10))) (JS.Fin 10)
  = JS.Fin (Qred (inject_Z ((20 * a + b) / (2 * b)) / 10)).
Proof.
  intros Hb Hx. unfold JS.mul, JS.Math_round.
  rewrite (Qfloor_comp _ (inject_Z a / inject_Z b * 10 + (1 # 2)))
    by (rewrite Qred_correct, Hx; reflexivity).
  rewrite Qfloor_tenths_half_up by exact Hb. reflexivity.
Qed.

(** X7: the [averageRating] of the subject page is the sum of the
    ratings, an absent one counting as 0, over the number of sessions,
    rounded to one decimal, a half going up; with [S] the sum and [n] the
    number that is [floor((20 S + n) / (2 n)) / 10], and 0 when there is
    no session. *)
Theorem get_subject_averageRating_one_decimal
    (subject : string) (l : list StudySession.t) :
  let S := reduce_sum rating_or_zero l in
  let n := len l in
  sr_averageRating (get_subject subject l)
  = JS.Fin (Qred (inject_Z ((20 * S + n) / (2 * n)) / 10)).
Proof.
  cbv zeta. unfold get_subject, sr_averageRating.
  destruct l as [|s l']; [reflexivity|].
  set (l := s :: l').
  assert (Hn : 0 < len l)
    by (unfold l; rewrite len_cons; pose proof (len_nonneg l'); lia).
  rewrite div_of_Z_nonzero by lia.
  destruct (or_zero_Fin (Qred (inject_Z (reduce_sum rating_or_zero l)
                               / inject_Z (len l)))) as [q [-> Hq]].
  apply round_to_tenths; [exact Hn|]. now rewrite Hq, Qred_correct.
Qed.

(** X8: the subject page and the entry of [subjectStats] agree: when
    the page is given the sessions of the subject, in any order, its
    [totalSessions] and [totalTime] are the entry's [sessions] and
    [totalTime], and its [averageRating] is the entry's rounded to one
    decimal. *)
Theorem subject_page_agrees_with_subjectStats
    (ss l : list StudySession.t) (cs : list ChatMessage.t) (subject : string) :
  Permutation l
    (filter (fun s => String.eqb (StudySession.subject s) subject) ss) ->
  let e := subjectStat (mkStore ss cs) subject in
  let r := get_subject subject l in
  sr_totalSessions r = SubjectStat.sessions e /\
  sr_totalTime r = SubjectStat.totalTime e /\
  sr_averageRating r
  = JS.div (JS.Math_round (JS.mul (SubjectStat.averageRating e) (JS.Fin 10)))
           (JS.Fin 10).
Proof.
  intros H. cbv zeta. unfold get_subject, subjectStat. cbn.
  rewrite (len_perm _ _ H), (reduce_sum_perm duration_or_zero _ _ H),
    (reduce_sum_perm rating_or_zero _ _ H).
  repeat split.
Qed.

(* ================================================================== *)
(** ** [POST /session/start] and [PUT /session/:sessionId/end] *)

(** X9: [POST /session/start] never stores a session.  Without a
    subject or a topic it answers 400; otherwise the document it builds
    has no [duration], which the schema requires, so [save] rejects it and
    the answer is 500.  The collection is the same afterwards. *)
Theorem session_start_never_stores
    (user now fresh : Z) (body : StartBody) (db : list SessionDoc.t) :
  post_session_start user now fresh body db
  = (if falsy_string (start_subject body) || falsy_string (start_topic body)
     then Message 400 "Subject and topic are required"
     else Message 500 "Server error starting session",
     db).
Proof.
  unfold post_session_start.
  destruct (falsy_string (start_subject body) || falsy_string (start_topic body));
    [reflexivity|].
  cbv zeta. unfold SessionDoc.save, SessionDoc.validate.
  cbn [SessionDoc.duration]. rewrite andb_false_r. reflexivity.
Qed.

Lemma findOneAndUpdate_none (matches : SessionDoc.t -> bool)
    (update : SessionDoc.t -> SessionDoc.t) (db : list SessionDoc.t) :
  (forall d, In d db -> matches d = false) ->
  SessionDoc.findOneAndUpdate matches update db = (None, db).
Proof.
  induction db as [|d db IH]; intros H; [reflexivity|].
  simpl. rewrite (H d) by now left.
  rewrite IH by (intros d' Hd'; apply H; now right). reflexivity.
Qed.

Lemma findOneAndUpdate_length (matches : SessionDoc.t -> bool)
    (update : SessionDoc.t -> SessionDoc.t) (db : list SessionDoc.t) :
  List.length (snd (SessionDoc.findOneAndUpdate matches update db))
  = List.length db.
Proof.
  induction db as [|d db IH]; [reflexivity|].
  simpl. destruct (matches d); [reflexivity|].
  destruct (SessionDoc.findOneAndUpdate matches update db) as [found rest].
  simpl in *. now rewrite IH.
Qed.

Lemma findOneAndUpdate_frame (matches : SessionDoc.t -> bool)
    (update : SessionDoc.t -> SessionDoc.t) (db : list SessionDoc.t) :
  forall n d,
    nth_error db n = Some d -> matches d = false ->
    nth_error (snd (SessionDoc.findOneAndUpdate matches update db)) n = Some d.
Proof.
  induction db as [|d0 db IH]; intros n d Hn Hd; [destruct n; discriminate|].
  simpl. destruct (matches d0) eqn:E.
  - destruct n as [|n]; simpl in *; [congruence | exact Hn].
  - destruct (SessionDoc.findOneAndUpdate matches update db) as [found rest] eqn:F.
    destruct n as [|n]; simpl in *; [exact Hn|].
    apply (IH n d Hn Hd).
Qed.

Lemma findOneAndUpdate_some (matches : SessionDoc.t -> bool)
    (update : SessionDoc.t -> SessionDoc.t) (db : list SessionDoc.t) :
  (exists d, In d db /\ matches d = true) ->
  exists d0 db',
    SessionDoc.findOneAndUpdate matches update db = (Some (update d0), db')
    /\ In d0 db /\ matches d0 = true /\ In (update d0) db'.
Proof.
  induction db as [|d db IH]; intros [x [Hx Hm]]; [contradiction|].
  simpl. destruct (matches d) eqn:E.
  - exists d, (update d :: db). repeat split; auto; now left.
  - destruct Hx as [->|Hx]; [congruence|].
    destruct (IH (ex_intro _ x (conj Hx Hm))) as [d0 [db' [F [Hin [Hm0 Hin']]]]].
    rewrite F. exists d0, (d :: db'). repeat split; auto; now right.
Qed.

(** X10: ending a session that the caller does not own, or that does
    not exist, is answered 404 and changes nothing. *)
Theorem session_end_not_found
    (strip_undefined : bool) (user now id : Z) (body : EndBody)
    (db : list SessionDoc.t) :
  (forall d, In d db -> SessionDoc._id d = id -> SessionDoc.userId d <> user) ->
  put_session_end strip_undefined user now (Some id) body db
  = (Message 404 "Session not found", db).
Proof.
  intros H. unfold put_session_end.
  rewrite findOneAndUpdate_none; [reflexivity|].
  intros d Hd. apply andb_false_iff.
  destruct (Z.eqb_spec (SessionDoc._id d) id) as [E|E]; [right | now left].
  apply Z.eqb_neq. now apply H.
Qed.

(** X11: whatever the request, [PUT /session/:sessionId/end] keeps
    the number of documents, and every document of another user stays
    where it is, unchanged. *)
Theorem session_end_leaves_other_users_alone
    (strip_undefined : bool) (user now : Z) (sessionId : option Z)
    (body : EndBody) (db : list SessionDoc.t) :
  let db' := snd (put_session_end strip_undefined user now sessionId body db) in
  List.length db' = List.length db /\
  (forall n d,
     nth_error db n = Some d -> SessionDoc.userId d <> user ->
     nth_error db' n = Some d).
Proof.
  cbv zeta. unfold put_session_end. destruct sessionId as [id|]; [|now split].
  set (matches := fun d => (SessionDoc._id d =? id) && (SessionDoc.userId d =? user)).
  pose proof (findOneAndUpdate_length matches
                (end_update strip_undefined now body) db) as Hlen.
  pose proof (findOneAndUpdate_frame matches
                (end_update strip_undefined now body) db) as Hframe.
  destruct (SessionDoc.findOneAndUpdate matches _ db) as [[session|] db'];
    [|now split].
  simpl in *. split; [exact Hlen|].
  intros n d Hn Hu. apply Hframe; [exact Hn|].
  unfold matches. apply andb_false_iff. right. now apply Z.eqb_neq.
Qed.

(** X12: ending a session the caller owns is answered 200 with the
    updated document, which is then in the collection: same identifier,
    owner, subject and creation time, [completed], ended at the clock's
    time, and with the duration of the request, 0 when the request gives
    none. *)
Theorem session_end_completes
    (strip_undefined : bool) (user now id : Z) (body : EndBody)
    (db : list SessionDoc.t) :
  (exists d, In d db /\ SessionDoc._id d = id /\ SessionDoc.userId d = user) ->
  exists old session db',
    put_session_end strip_undefined user now (Some id) body db
    = (Json 200 session, db')
    /\ In old db /\ In session db'
    /\ SessionDoc._id session = id /\ SessionDoc.userId session = user
    /\ SessionDoc.subject session = SessionDoc.subject old
    /\ SessionDoc.createdAt session = SessionDoc.createdAt old
    /\ SessionDoc.completed session = true
    /\ SessionDoc.endTime session = now
    /\ SessionDoc.duration session = Some (JS.field_or_zero (end_duration body)).
Proof.
  intros [d [Hd [Hid Hu]]]. unfold put_session_end.
  destruct (findOneAndUpdate_some
              (fun d => (SessionDoc._id d =? id) && (SessionDoc.userId d =? user))
              (end_update strip_undefined now body) db)
    as [d0 [db' [F [Hin [Hm Hin']]]]].
  { exists d. split; [exact Hd|]. now rewrite Hid, Hu, !Z.eqb_refl. }
  rewrite F. apply andb_true_iff in Hm as [H1 H2].
  apply Z.eqb_eq in H1, H2.
  exists d0, (end_update strip_undefined now body d0), db'.
  repeat split; auto.
Qed.

(* ================================================================== *)
(** ** [GET /stats] over the collections *)

Lemma startDate_cases (p : string) (now : Z) :
  startDate p now = now - 7 * 24 * 60 * 60 * 1000 \/
  startDate p now = now - 30 * 24 * 60 * 60 * 1000 \/
  startDate p now = now - 90 * 24 * 60 * 60 * 1000.
Proof.
  unfold startDate.
  destruct (String.eqb p "7d"); [now left|].
  destruct (String.eqb p "30d"); [right; now left|].
  destruct (String.eqb p "90d"); [right; now right | right; now left].
Qed.

Lemma len_filter_map_filter_mono {A B} (v : A -> B) (g : B -> bool)
    (f1 f2 : A -> bool) (l : list A) :
  (forall x, f1 x = true -> f2 x = true) ->
  len (filter g (map v (filter f1 l))) <= len (filter g (map v (filter f2 l))).
Proof.
  intros H. induction l as [|x l IH]; [simpl; lia|].
  cbn [filter]. destruct (f1 x) eqn:E1.
  - rewrite (H x E1). cbn [map filter].
    destruct (g (v x)); rewrite ?len_cons; lia.
  - destruct (f2 x); [|exact IH]. cbn [map filter].
    destruct (g (v x)); rewrite ?len_cons; lia.
Qed.

Lemma len_filter_true {A} (l : list A) : len (filter (fun _ => true) l) = len l.
Proof. induction l as [|x l IH]; [reflexivity|]. cbn [filter]. rewrite !len_cons. lia. Qed.

Lemma stats_route_totalSessions (LocalTZA : Z -> bool -> Z) (user now : Z)
    (q : option string) (sdb : list SessionDoc.t) (cdb : list ChatDoc.t) :
  totalSessions (stats_route LocalTZA user now q sdb cdb)
  = len (filter (fun _ => true)
           (map SessionDoc.view
              (find_sessions user
                 (startDate (match q with Some p => p | None => "30d"%string end) now)
                 sdb))).
Proof.
  unfold stats_route. cbv zeta. rewrite stats_totalSessions.
  symmetry. apply len_filter_true.
Qed.

Lemma later_start_user_filter {A} (uid created : A -> Z) (user start start' : Z)
    (x : A) :
  start <= start' ->
  (uid x =? user) && (start' <=? created x) = true ->
  (uid x =? user) && (start <=? created x) = true.
Proof.
  intros Hle H. apply andb_true_iff in H as [H1 H2]. apply andb_true_iff.
  split; [exact H1|]. apply Z.leb_le in H2. apply Z.leb_le. lia.
Qed.

(** X13: a longer period never shows less: the number of sessions
    and the number of questions for 7 days are at most those for 30 days,
    and those at most the ones for 90 days. *)
Theorem stats_periods_nested
    (LocalTZA : Z -> bool -> Z) (caller now : Z)
    (sdb : list SessionDoc.t) (cdb : list ChatDoc.t) :
  let week := stats_route LocalTZA caller now (Some "7d"%string) sdb cdb in
  let month := stats_route LocalTZA caller now (Some "30d"%string) sdb cdb in
  let quarter := stats_route LocalTZA caller now (Some "90d"%string) sdb cdb in
  totalSessions week <= totalSessions month <= totalSessions quarter /\
  totalQuestions week <= totalQuestions month <= totalQuestions quarter.
Proof.
  cbv zeta. rewrite !stats_route_totalSessions.
  change (totalQuestions (stats_route LocalTZA caller now (Some "7d"%string) sdb cdb))
    with (len (filter (fun msg => Role_eqb (ChatMessage.role msg) user)
                 (map ChatDoc.view
                    (find_chat caller (now - 7 * 24 * 60 * 60 * 1000) cdb)))).
  change (totalQuestions (stats_route LocalTZA caller now (Some "30d"%string) sdb cdb))
    with (len (filter (fun msg => Role_eqb (ChatMessage.role msg) user)
                 (map ChatDoc.view
                    (find_chat caller (now - 30 * 24 * 60 * 60 * 1000) cdb)))).
  change (totalQuestions (stats_route LocalTZA caller now (Some "90d"%string) sdb cdb))
    with (len (filter (fun msg => Role_eqb (ChatMessage.role msg) user)
                 (map ChatDoc.view
                    (find_chat caller (now - 90 * 24 * 60 * 60 * 1000) cdb)))).
  change (startDate "7d" now) with (now - 7 * 24 * 60 * 60 * 1000).
  change (startDate "30d" now) with (now - 30 * 24 * 60 * 60 * 1000).
  change (startDate "90d" now) with (now - 90 * 24 * 60 * 60 * 1000).
  unfold find_sessions, find_chat.
  repeat split; apply len_filter_map_filter_mono; intros x;
    apply later_start_user_filter; lia.
Qed.

(** X14: a period other than 7d and 90d is answered with the
    statistics of 30 days, under the label that was asked for. *)
Theorem unknown_period_means_30_days
    (LocalTZA : Z -> bool -> Z) (caller now : Z) (p : string)
    (sdb : list SessionDoc.t) (cdb : list ChatDoc.t) :
  p <> "7d"%string -> p <> "90d"%string ->
  stats_route LocalTZA caller now (Some p) sdb cdb
  = with_period p (stats_route LocalTZA caller now None sdb cdb).
Proof.
  intros H7 H90. unfold stats_route. cbv zeta.
  assert (E : startDate p now = startDate "30d" now).
  { unfold startDate. apply String.eqb_neq in H7, H90. rewrite H7, H90.
    destruct (String.eqb p "30d"); reflexivity. }
  rewrite E. reflexivity.
Qed.

Lemma find_sessions_of_user (caller start : Z) (db : list SessionDoc.t) :
  find_sessions caller start db
  = filter (fun d => start <=? SessionDoc.createdAt d) (sessions_of_user caller db).
Proof.
  unfold find_sessions, sessions_of_user.
  induction db as [|d db IH]; [reflexivity|].
  cbn [filter]. destruct (SessionDoc.userId d =? caller); cbn [andb filter];
    [destruct (start <=? SessionDoc.createdAt d); now rewrite IH | exact IH].
Qed.

Lemma find_chat_of_user (caller start : Z) (db : list ChatDoc.t) :
  find_chat caller start db
  = filter (fun d => start <=? ChatDoc.createdAt d) (chat_of_user caller db).
Proof.
  unfold find_chat, chat_of_user.
  induction db as [|d db IH]; [reflexivity|].
  cbn [filter]. destruct (ChatDoc.userId d =? caller); cbn [andb filter];
    [destruct (start <=? ChatDoc.createdAt d); now rewrite IH | exact IH].
Qed.

(** X15: the statistics depend on the caller's own documents only:
    two states of the collections with the same sessions and the same chat
    messages of the caller get the same response. *)
Theorem stats_depend_on_own_documents_only
    (LocalTZA : Z -> bool -> Z) (caller now : Z) (q : option string)
    (sdb sdb' : list SessionDoc.t) (cdb cdb' : list ChatDoc.t) :
  sessions_of_user caller sdb = sessions_of_user caller sdb' ->
  chat_of_user caller cdb = chat_of_user caller cdb' ->
  stats_route LocalTZA caller now q sdb cdb
  = stats_route LocalTZA caller now q sdb' cdb'.
Proof.
  intros Hs Hc. unfold stats_route. cbv zeta.
  now rewrite !find_sessions_of_user, !find_chat_of_user, Hs, Hc.
Qed.

(** ** The weekly activity over the collections *)

Lemma created_on_view_find (tz day caller start : Z) (db : list SessionDoc.t) :
  start <= local_day_start tz day ->
  created_on tz day (map SessionDoc.view (find_sessions caller start db))
  = created_on tz day (map SessionDoc.view (sessions_of_user caller db)).
Proof.
  intros Hstart. rewrite find_sessions_of_user.
  induction (sessions_of_user caller db) as [|d l IH]; [reflexivity|].
  cbn [filter]. destruct (Z.leb_spec start (SessionDoc.createdAt d)) as [Hle|Hlt].
  - unfold created_on in *. cbn [map filter]. now rewrite IH.
  - rewrite IH. unfold created_on. cbn [map filter].
    change (StudySession.createdAt (SessionDoc.view d))
      with (SessionDoc.createdAt d).
    destruct (Z.eqb_spec (local_day tz (SessionDoc.createdAt d)) day) as [E|E];
      [|reflexivity].
    exfalso. unfold local_day_start, local_day, Date.Day, Date.msPerDay in *.
    Z.div_mod_to_equations. lia.
Qed.

(** X16: on a host with a fixed offset, the weekly activity of the
    response is that of all the caller's sessions, whatever the period:
    each of the three windows reaches back past the first of the seven
    days. *)
Theorem weeklyActivity_independent_of_period
    (tz caller now : Z) (q : option string)
    (sdb : list SessionDoc.t) (cdb : list ChatDoc.t) :
  6 * Date.msPerDay <= now + tz ->
  weeklyActivity (stats_route (Date.fixed_zone tz) caller now q sdb cdb)
  = getWeeklyActivity (Date.fixed_zone tz) now
      (map SessionDoc.view (sessions_of_user caller sdb)).
Proof.
  intros H. unfold stats_route. cbv zeta.
  rewrite stats_weeklyActivity.
  rewrite <- (getWeeklyActivity_perm _ _ _ _ (Array_sort_perm byCreatedAtDesc _)).
  rewrite !getWeeklyActivity_fixed_zone by exact H.
  apply map_ext_in. intros i Hi. unfold bucket_of_day.
  rewrite created_on_view_find; [reflexivity|].
  set (p := match q with Some p => p | None => "30d"%string end).
  pose proof (startDate_cases p now) as Hp.
  unfold local_day_start, local_day, Date.Day, Date.msPerDay in *.
  simpl in Hi. Z.div_mod_to_equations. lia.
Qed.

Lemma sum_created_between_first (g : StudySession.t -> Z) (tz first last : Z)
    (l : list StudySession.t) :
  first <= last ->
  reduce_sum g (created_between tz first last l)
  = reduce_sum g (created_on tz first l)
    + reduce_sum g (created_between tz (first + 1) last l).
Proof.
  intros Hle. unfold created_between, created_on.
  induction l as [|s l IH]; [reflexivity|].
  cbn [filter]. set (d := local_day tz (StudySession.createdAt s)).
  destruct (Z.eqb_spec d first) as [E|E];
    destruct (Z.leb_spec first d); destruct (Z.leb_spec d last);
    destruct (Z.leb_spec (first + 1) d); cbn [andb];
    rewrite ?reduce_sum_cons; try lia.
Qed.

(** X17: on a host with a fixed offset the times of the seven
    buckets add up to the minutes of the sessions created on the seven
    local days that end today. *)
Theorem weekly_time_total_fixed_zone (tz now : Z) (l : list StudySession.t) :
  6 * Date.msPerDay <= now + tz ->
  sumZ (map WeeklyBucket.time (getWeeklyActivity (Date.fixed_zone tz) now l))
  = reduce_sum duration_or_zero
      (created_between tz (local_day tz now - 6) (local_day tz now) l).
Proof.
  intros H. rewrite getWeeklyActivity_fixed_zone by exact H.
  set (today := local_day tz now). simpl.
  rewrite (sum_created_between_first _ tz (today - 6)) by lia.
  replace (today - 6 + 1) with (today - 5) by lia.
  rewrite (sum_created_between_first _ tz (today - 5)) by lia.
  replace (today - 5 + 1) with (today - 4) by lia.
  rewrite (sum_created_between_first _ tz (today - 4)) by lia.
  replace (today - 4 + 1) with (today - 3) by lia.
  rewrite (sum_created_between_first _ tz (today - 3)) by lia.
  replace (today - 3 + 1) with (today - 2) by lia.
  rewrite (sum_created_between_first _ tz (today - 2)) by lia.
  replace (today - 2 + 1) with (today - 1) by lia.
  rewrite (sum_created_between_first _ tz (today - 1)) by lia.
  replace (today - 1 + 1) with today by lia.
  rewrite created_between_single, Z.sub_0_r. lia.
Qed.

Lemma len_zero_nil {A} (l : list A) : len l = 0 -> l = [].
Proof.
  destruct l as [|x l]; [reflexivity|].
  rewrite len_cons. pose proof (len_nonneg l). lia.
Qed.

(** X18: in any zone, daylight saving or not, a bucket counts at most
    all the sessions, a bucket without sessions has the time 0, and the
    seven counts add up to at most seven times the number of sessions. *)
Theorem weekly_buckets_in_any_zone
    (LocalTZA : Z -> bool -> Z) (now : Z) (l : list StudySession.t) :
  let week := getWeeklyActivity LocalTZA now l in
  Forall (fun b =>
            0 <= WeeklyBucket.sessions b <= len l
            /\ (WeeklyBucket.sessions b = 0 -> WeeklyBucket.time b = 0)) week /\
  sumZ (map WeeklyBucket.sessions week) <= 7 * len l.
Proof.
  cbv zeta. rewrite getWeeklyActivity_map.
  assert (Hb : forall i,
             0 <= WeeklyBucket.sessions (weeklyBucket LocalTZA now l i) <= len l
             /\ (WeeklyBucket.sessions (weeklyBucket LocalTZA now l i) = 0 ->
                 WeeklyBucket.time (weeklyBucket LocalTZA now l i) = 0)).
  { intros i. unfold weeklyBucket. cbv zeta.
    cbn [WeeklyBucket.sessions WeeklyBucket.time].
    set (f := fun session : StudySession.t => _).
    split; [split; [apply len_nonneg | apply len_filter_le]|].
    intros H0. now rewrite (len_zero_nil _ H0). }
  split.
  - apply Forall_forall. intros b Hin. apply in_map_iff in Hin as [i [<- _]].
    apply Hb.
  - cbn [map sumZ fold_right].
    pose proof (Hb 6). pose proof (Hb 5). pose proof (Hb 4). pose proof (Hb 3).
    pose proof (Hb 2). pose proof (Hb 1). pose proof (Hb 0). lia.
Qed.

(* ================================================================== *)
(** ** The pages *)

Lemma below_ten (a : Z) :
  0 <= a < 10 ->
  a = 0 \/ a = 1 \/ a = 2 \/ a = 3 \/ a = 4 \/ a = 5 \/ a = 6 \/ a = 7 \/
  a = 8 \/ a = 9.
Proof. lia. Qed.

(** A number below 100 is shown with two digits that read back. *)
Lemma two_digit_field (n : Z) :
  0 <= n < 100 ->
  exists c1 c2,
    padStart2 (toString n) = String c1 (String c2 EmptyString)
    /\ two_digits c1 c2 = Some n.
Proof.
  intros H.
  assert (Ha : 0 <= n / 10 < 10) by (Z.div_mod_to_equations; lia).
  assert (Hb : 0 <= n mod 10 < 10) by (Z.div_mod_to_equations; lia).
  assert (E : n = 10 * (n / 10) + n mod 10) by (Z.div_mod_to_equations; lia).
  rewrite E. clear E H.
  exists (ascii_of_nat (48 + Z.to_nat (n / 10))),
         (ascii_of_nat (48 + Z.to_nat (n mod 10))).
  destruct (below_ten _ Ha) as [->|[->|[->|[->|[->|[->|[->|[->|[->| ->]]]]]]]]];
    destruct (below_ten _ Hb) as [->|[->|[->|[->|[->|[->|[->|[->|[->| ->]]]]]]]]];
    split; reflexivity.
Qed.

(** X19: below 100 hours the clock of the timer reads back: a time
    under an hour is shown as [MM:SS], five characters, a longer one as
    [HH:MM:SS], eight characters, and parsing what is shown gives the
    seconds again, so different times are shown differently. *)
Theorem formatTime_reads_back (seconds : Z) :
  0 <= seconds < 360000 ->
  parse_clock (formatTime seconds) = Some seconds
  /\ String.length (formatTime seconds)
     = (if seconds <? 3600 then 5%nat else 8%nat).
Proof.
  intros H. unfold formatTime. cbv zeta.
  rewrite !Z.rem_mod_nonneg by lia.
  assert (Hh : 0 <= seconds / 3600 < 100) by (Z.div_mod_to_equations; lia).
  assert (Hm : 0 <= seconds mod 3600 / 60 < 100) by (Z.div_mod_to_equations; lia).
  assert (Hs : 0 <= seconds mod 60 < 100) by (Z.div_mod_to_equations; lia).
  destruct (two_digit_field _ Hh) as [h1 [h2 [Eh Ph]]].
  destruct (two_digit_field _ Hm) as [m1 [m2 [Em Pm]]].
  destruct (two_digit_field _ Hs) as [s1 [s2 [Es Ps]]].
  rewrite Eh, Em, Es.
  destruct (Z.ltb_spec 0 (seconds / 3600)) as [Hpos|Hzero].
  - assert (Hge : 3600 <= seconds) by (Z.div_mod_to_equations; lia).
    destruct (Z.ltb_spec seconds 3600) as [?|_]; [lia|].
    split; [|reflexivity].
    cbn [String.append parse_clock]. rewrite Ph, Pm, Ps.
    cbn [Ascii.eqb Bool.eqb andb]. f_equal. Z.div_mod_to_equations. lia.
  - assert (Hlt : seconds < 3600) by (Z.div_mod_to_equations; lia).
    destruct (Z.ltb_spec seconds 3600) as [_|?]; [|lia].
    split; [|reflexivity].
    cbn [String.append parse_clock]. rewrite Pm, Ps.
    cbn [Ascii.eqb Bool.eqb]. f_equal. Z.div_mod_to_equations. lia.
Qed.

(** X20: the hours on the progress page are the minutes over 60
    rounded to the nearest hour, a half hour going up: less than half an
    hour is shown as 0h. *)
Theorem shown_hours_nearest (minutes : Z) :
  exists h,
    shown_hours minutes = JS.of_Z h
    /\ 60 * h - 30 <= minutes < 60 * h + 30.
Proof.
  exists ((2 * minutes + 60) / (2 * 60)). split.
  - unfold shown_hours. change (JS.Fin 60) with (JS.of_Z 60).
    rewrite round_div_of_Z, Qfloor_half_up by lia. reflexivity.
  - Z.div_mod_to_equations. lia.
Qed.

(* ================================================================== *)
(** ** The hypotheses above can be met *)

Lemma averageSessionLength_between_witness :
  seven_sessions <> [] /\
  exists a,
    averageSessionLength (computeStats zone_UTC seven_sessions [] "30d" 0)
    = JS.of_Z a
    /\ 0 <= a <= 60.
Proof.
  split; [discriminate|].
  apply (averageSessionLength_between zone_UTC seven_sessions [] "30d" 0 0 60);
    [discriminate|].
  repeat constructor; simpl; lia.
Defined.


Lemma subject_page_agrees_with_subjectStats_witness :
  let e := subjectStat (mkStore seven_sessions []) "DSA" in
  let r := get_subject "DSA" dsa_sessions_newest_first in
  sr_totalSessions r = SubjectStat.sessions e /\
  sr_totalTime r = SubjectStat.totalTime e /\
  sr_averageRating r
  = JS.div (JS.Math_round (JS.mul (SubjectStat.averageRating e) (JS.Fin 10)))
           (JS.Fin 10).
Proof.
  apply (subject_page_agrees_with_subjectStats seven_sessions
           dsa_sessions_newest_first [] "DSA").
  apply perm_swap.
Defined.

Lemma session_end_not_found_witness :
  put_session_end true 7 noon_IST_2024_01_15 (Some 2) empty_end_body
    sample_sessions_db
  = (Message 404 "Session not found", sample_sessions_db).
Proof.
  apply (session_end_not_found true 7 noon_IST_2024_01_15 2 empty_end_body
           sample_sessions_db).
  intros d [<-|[<-|[<-|[]]]]; simpl; intros; lia.
Defined.

Lemma session_end_completes_witness :
  exists old session db',
    put_session_end true 7 noon_IST_2024_01_15 (Some 1) empty_end_body
      sample_sessions_db
    = (Json 200 session, db')
    /\ In old sample_sessions_db /\ In session db'
    /\ SessionDoc._id session = 1 /\ SessionDoc.userId session = 7
    /\ SessionDoc.subject session = SessionDoc.subject old
    /\ SessionDoc.createdAt session = SessionDoc.createdAt old
    /\ SessionDoc.completed session = true
    /\ SessionDoc.endTime session = noon_IST_2024_01_15
    /\ SessionDoc.duration session
       = Some (JS.field_or_zero (end_duration empty_end_body)).
Proof.
  apply (session_end_completes true 7 noon_IST_2024_01_15 1 empty_end_body
           sample_sessions_db).
  exists (stored 1 7 "DSA" (Some 30) (Some 4) 1705290000000).
  split; [now left | split; reflexivity].
Defined.

Lemma unknown_period_means_30_days_witness :
  stats_route zone_UTC 7 noon_IST_2024_01_15 (Some "1y"%string)
    sample_sessions_db sample_chat_db
  = with_period "1y"
      (stats_route zone_UTC 7 noon_IST_2024_01_15 None
         sample_sessions_db sample_chat_db).
Proof.
  apply (unknown_period_means_30_days zone_UTC 7 noon_IST_2024_01_15 "1y"
           sample_sessions_db sample_chat_db); discriminate.
Defined.

Lemma stats_depend_on_own_documents_only_witness :
  stats_route zone_UTC 7 noon_IST_2024_01_15 (Some "90d"%string)
    sample_sessions_db sample_chat_db
  = stats_route zone_UTC 7 noon_IST_2024_01_15 (Some "90d"%string)
      sample_sessions_db_of_7 sample_chat_db_of_7.
Proof.
  apply (stats_depend_on_own_documents_only zone_UTC 7 noon_IST_2024_01_15
           (Some "90d"%string) sample_sessions_db sample_sessions_db_of_7
           sample_chat_db sample_chat_db_of_7); reflexivity.
Defined.

Lemma weeklyActivity_independent_of_period_witness :
  weeklyActivity
    (stats_route (Date.fixed_zone 19800000) 7 noon_IST_2024_01_15
       (Some "7d"%string) sample_sessions_db sample_chat_db)
  = getWeeklyActivity (Date.fixed_zone 19800000) noon_IST_2024_01_15
      (map SessionDoc.view (sessions_of_user 7 sample_sessions_db)).
Proof.
  apply (weeklyActivity_independent_of_period 19800000 7 noon_IST_2024_01_15
           (Some "7d"%string) sample_sessions_db sample_chat_db).
  unfold Date.msPerDay, noon_IST_2024_01_15. lia.
Defined.

Lemma weekly_time_total_fixed_zone_witness :
  sumZ (map WeeklyBucket.time
          (getWeeklyActivity (Date.fixed_zone 0) 1730694600000
             one_session_2024_11_03))
  = reduce_sum duration_or_zero
      (created_between 0 (local_day 0 1730694600000 - 6)
         (local_day 0 1730694600000) one_session_2024_11_03).
Proof.
  apply (weekly_time_total_fixed_zone 0 1730694600000 one_session_2024_11_03).
  unfold Date.msPerDay. lia.
Defined.

Lemma formatTime_reads_back_witness :
  parse_clock (formatTime 3725) = Some 3725
  /\ String.length (formatTime 3725) = (if 3725 <? 3600 then 5%nat else 8%nat).
Proof. apply (formatTime_reads_back 3725). lia. Defined.
